(** * pydriosm.geofabrik: a shallow embedding of the GeoFabrik catalogue
      builder and download orchestrator

    The Python class [GeoFabrik] (src/pydriosm/geofabrik.py) is embedded
    function by function.  Python values that the code inspects dynamically
    are given inductive types, dicts keep their insertion order (association
    lists), a [pandas.DataFrame] is a list of rows paired with their index
    labels, and every method runs in a monad that threads the process state
    (the five pickled artefacts, the downloaded files, the console and network
    history), may raise a Python exception, and may run out of fuel where the
    source recurses or loops without a bound.

    Collaborators that live outside the repository (pandas/requests/bs4 page
    scraping, pyhelpers, humanfriendly, os.path, the interactive prompt) are
    fields of a [World] record.

    Of the console output, the lines that report a result are recorded (what
    failed, what is not available, what is already there, what is being
    downloaded or was cancelled); the progress lines of the builders are
    not.  The history records one [EvFetch] for each page address the code
    requests, whatever the number of HTTP requests behind it. *)

From Stdlib Require Import Ascii.
From stdpp Require Import base option list strings gmap.

Local Open Scope string_scope.
Local Open Scope list_scope.
#[local] Set Warnings "-register-all,-level-tolerance,-clear-no-such-hyp".

(** ** Python exceptions *)

(** The exception classes the source names or can meet.  [HTTPError] is
    [urllib.error.HTTPError]; [ConnectionError] is the builtin class, of which
    [ConnectionRefusedError] is a subclass.  All of them derive from
    [Exception]. *)
Inductive exn : Type :=
  | ValueError
  | TypeError
  | ConnectionRefusedError
  | ConnectionError
  | HTTPError
  | AttributeError
  | AssertionError
  | IndexError
  | KeyError
  | OtherException.

#[global] Instance exn_eq_dec : EqDecision exn.
Proof. solve_decision. Defined.

(** What a call into a collaborator gives back: a value or a raised
    exception. *)
Inductive result (A : Type) : Type :=
  | Ok (a : A)
  | Err (e : exn).
Arguments Ok {A} a.
Arguments Err {A} e.

(** ** Data model *)

(** One row of a subregion table, with the columns in the order the source
    gives them: Subregion, SubregionURL, .osm.pbf, .osm.pbf.Size, .shp.zip,
    .osm.bz2.  A cell that holds [None] is [None] here. *)
Record Row : Type := mkRow {
  Subregion : string;
  SubregionURL : string;
  osm_pbf : option string;
  osm_pbf_Size : option string;
  shp_zip : option string;
  osm_bz2 : option string
}.

#[global] Instance Row_eq_dec : EqDecision Row.
Proof. solve_decision. Defined.

(** A table as returned by [get_subregion_table]: rows under the default
    index 0, 1, 2, ... *)
Definition Table : Type := list Row.

(** A data frame whose index labels matter: each row carries its label. *)
Definition DataFrame : Type := list (nat * Row).

(** The Python values stored in the dicts of subregion tables and of the
    region-subregion tier: [None], a [DataFrame] (a subregion table), the
    placeholder [set] of names written by the first loop of
    [compile_region_subregion_tier], or a nested [dict].  Dicts keep their
    insertion order. *)
Inductive PyVal : Type :=
  | VNone
  | VTable (t : Table)
  | VSet (names : list string)
  | VDict (d : list (string * PyVal)).

Definition PyDict : Type := list (string * PyVal).

(** The result of [.loc[name, column]] on a frame indexed by Subregion: a
    scalar cell when the label is unique, a Series when it is not. *)
Inductive Cell : Type :=
  | Scalar (v : option string)
  | Series (vs : list (option string)).

(** ** Console, prompts and the event history *)

Inductive prompt : Type :=
  | AskGetIndex
  | AskGetNameList
  | AskCollectContinents
  | AskCompileTier
  | AskCollectCatalogue
  | AskDownload (osm_file_format subregion_name_ : string).

Inductive message : Type :=
  | MsgFailed (e : exn)
  | MsgNoData (what : string)
  | MsgNotAvailable (osm_file_format subregion_name_ : string)
  | MsgNotAvailableTrySubregions (osm_file_format subregion_name_ : string)
  | MsgAlreadyAvailable (osm_filename subregion_name_ path_to_file : string)
  | MsgOperation (updating : bool) (osm_filename : string)
  | MsgDone
  | MsgCancelled (updating : bool) (osm_filename : string).

Inductive event : Type :=
  | EvFetch (url : string)
  | EvAsk (p : prompt)
  | EvPrint (m : message)
  | EvSavePickle (path_name : string) (ok : bool)
  | EvDownloadFile (download_url : Cell) (path_to_file : string) (failed : option exn)
  | EvSleep (interval_sec : nat).

(** ** Process state *)

(** The five pickled artefacts under [cd_dat], the regular files that exist
    under the download directories, and the history of effects (most recent
    last). *)
Record State : Type := mkState {
  pk_download_index : option (list string);
  pk_name_list : option (list string);
  pk_continents : option PyDict;
  pk_tier : option (PyDict * list string);
  pk_catalogue : option DataFrame;
  files : gset string;
  history : list event
}.

Definition log (e : event) (s : State) : State :=
  mkState (pk_download_index s) (pk_name_list s) (pk_continents s) (pk_tier s)
          (pk_catalogue s) (files s) (history s ++ [e]).

(** ** The effect monad *)

Inductive outcome (A : Type) : Type :=
  | Return (a : A) (s : State)
  | Raise (e : exn) (s : State)
  | Diverge.
Arguments Return {A} a s.
Arguments Raise {A} e s.
Arguments Diverge {A}.

Definition M (A : Type) : Type := State → outcome A.

#[global] Instance M_ret : MRet M := λ A a s, Return a s.
#[global] Instance M_bind : MBind M := λ A B f m s,
  match m s with
  | Return a s' => f a s'
  | Raise e s' => Raise e s'
  | Diverge => Diverge
  end.

Definition raise {A} (e : exn) : M A := λ s, Raise e s.
Definition diverge {A} : M A := λ _, Diverge.
Definition get_state : M State := λ s, Return s s.
Definition emit (e : event) : M unit := λ s, Return () (log e s).
Definition lift_result {A} (r : result A) : M A :=
  match r with Ok a => mret a | Err e => raise e end.

#[global] Instance result_ret : MRet result := λ A a, Ok a.
#[global] Instance result_bind : MBind result := λ A B f r,
  match r with Ok a => f a | Err e => Err e end.

Fixpoint fold_result {A B} (f : B → A → result B) (l : list A) (b : B) : result B :=
  match l with
  | [] => Ok b
  | x :: l' => b' ← f b x; fold_result f l' b'
  end.

Fixpoint map_result {A B} (f : A → result B) (l : list A) : result (list B) :=
  match l with
  | [] => Ok []
  | x :: l' => y ← f x; ys ← map_result f l'; Ok (y :: ys)
  end.

(** [try: body / except Exception as e: handler e]: every modelled exception
    derives from [Exception]; the state changes made before the exception
    stay. *)
Definition try_except {A} (body : M A) (handler : exn → M A) : M A := λ s,
  match body s with
  | Return a s' => Return a s'
  | Raise e s' => handler e s'
  | Diverge => Diverge
  end.

(** A [for] loop (or list comprehension) whose body has effects. *)
Fixpoint for_each {A B} (f : A → M B) (l : list A) : M (list B) :=
  match l with
  | [] => mret []
  | x :: l' => y ← f x; ys ← for_each f l'; mret (y :: ys)
  end.

Fixpoint fold_each {A B} (f : B → A → M B) (l : list A) (b : B) : M B :=
  match l with
  | [] => mret b
  | x :: l' => b' ← f b x; fold_each f l' b'
  end.

(** ** Python strings and lists *)

(** A string is a sequence of code points below 256. *)
Fixpoint lstrip (c : ascii) (s : string) : string :=
  match s with
  | String a s' => if decide (a = c) then lstrip c s' else s
  | EmptyString => EmptyString
  end.

Fixpoint rstrip (c : ascii) (s : string) : string :=
  match s with
  | String a s' =>
      match rstrip c s' with
      | EmptyString => if decide (a = c) then EmptyString else String a EmptyString
      | t => String a t
      end
  | EmptyString => EmptyString
  end.

(** [s.strip(c)] for a one-character set. *)
Definition strip (c : ascii) (s : string) : string := rstrip c (lstrip c s).

(** [s.replace(a, b)] for single characters. *)
Fixpoint replace (a b : ascii) (s : string) : string :=
  match s with
  | String x s' => String (if decide (x = a) then b else x) (replace a b s')
  | EmptyString => EmptyString
  end.

Definition lower_char (a : ascii) : ascii :=
  let n := nat_of_ascii a in
  if ((65 <=? n) && (n <=? 90))%nat then ascii_of_nat (n + 32)
  else if ((192 <=? n) && (n <=? 222) && negb (n =? 215))%nat then ascii_of_nat (n + 32)
  else a.

(** [s.lower()]. *)
Fixpoint lower (s : string) : string :=
  match s with
  | String a s' => String (lower_char a) (lower s')
  | EmptyString => EmptyString
  end.

(** [s.split(c)]: never empty; the empty string gives one empty piece. *)
Fixpoint split (c : ascii) (s : string) : list string :=
  match s with
  | EmptyString => [EmptyString]
  | String a s' =>
      if decide (a = c) then EmptyString :: split c s'
      else match split c s' with
           | p :: ps => String a p :: ps
           | [] => [String a EmptyString]
           end
  end.

(** [more_itertools.unique_everseen] (and [list(dict.fromkeys(l))]): the
    elements in order of first appearance. *)
Fixpoint unique_everseen_from (seen l : list string) : list string :=
  match l with
  | [] => []
  | x :: l' =>
      if decide (x ∈ seen) then unique_everseen_from seen l'
      else x :: unique_everseen_from (x :: seen) l'
  end.

Definition unique_everseen (l : list string) : list string :=
  unique_everseen_from [] l.

(** [range(start, stop, step)] for a positive step. *)
Fixpoint range_from (n start stop step : nat) : list nat :=
  match n with
  | 0 => []
  | S n' =>
      if (start <? stop)%nat then start :: range_from n' (start + step) stop step
      else []
  end.

Definition py_range (start stop step : nat) : result (list nat) :=
  if (step =? 0)%nat then Err ValueError else Ok (range_from stop start stop step).

(** ** Dicts *)

(** [d[k] = v]: an existing key keeps its position. *)
Fixpoint dict_set {V} (k : string) (v : V) (d : list (string * V)) : list (string * V) :=
  match d with
  | [] => [(k, v)]
  | (k', v') :: d' =>
      if decide (k' = k) then (k, v) :: d' else (k', v') :: dict_set k v d'
  end.

(** [dict(zip(keys, values))]. *)
Definition dict_zip {V} (keys : list string) (values : list V) : list (string * V) :=
  foldl (λ d kv, dict_set kv.1 kv.2 d) [] (zip keys values).

(** [d.pop(k)] for a key that is present. *)
Definition dict_pop {V} (k : string) (d : list (string * V)) : list (string * V) :=
  filter (λ kv, kv.1 ≠ k) d.

(** ** The collaborators *)

Record World : Type := mkWorld {
  (** [pyhelpers.text.find_similar_str(x, lookup_list)] *)
  find_similar_str : string → list string → option string;
  (** the body of the [try] block of [get_subregion_table] at a URL:
      [pd.read_html], [requests.get], [bs4] and the column clean-up *)
  scrape_subregion_table : string → result Table;
  (** [requests.get(self.URL)] and the [td.subregion] anchors of the home
      page: the text and the joined [href] of each *)
  scrape_home_page : result (list (string * string));
  (** [gpd.read_file(self.DownloadIndexURL)] and its clean-up: the [name]
      column of the download index *)
  read_download_index : result (list string);
  (** the answer typed at an interactive prompt *)
  user_confirms : prompt → bool;
  (** whether [pyhelpers.store.save_pickle] manages to write the artefact of
      that name (it reports a failure on the console and does not raise) *)
  save_pickle_succeeds : string → bool;
  (** [pyhelpers.ops.download_file_from_url(url, path)]: [None] on success,
      the raised exception otherwise *)
  download_file_from_url : string → string → option exn;
  (** [humanfriendly.parse_size] *)
  parse_size : string → result N;
  (** [urllib.parse.urlparse(x).path] *)
  urlparse_path : string → string;
  os_path_isdir : string → bool;
  os_path_dirname : string → string;
  os_path_basename : string → string;
  os_path_join : string → string → string;
  (** [os.path.splitext(x)[0]] *)
  os_path_splitext_root : string → string;
  os_path_relpath : string → string;
  (** [pydriosm.utils.cd_dat_geofabrik] applied to its directory segments
      and its [mkdir] flag *)
  cd_dat_geofabrik : list (option string) → bool → result string;
  (** [pyhelpers.dir.regulate_input_data_dir] *)
  regulate_input_data_dir : string → string;
  (** the order in which [list(set(a) - set(b))] enumerates its elements,
      given the elements in order of first appearance in [a] *)
  set_iteration_order : list string → list string
}.

(** ** class GeoFabrik *)

Section GeoFabrik.

Context (W : World).

(** *** __init__ *)

Definition URL : string := "http://download.geofabrik.de/".
Definition ValidFileFormats : list string := [".osm.pbf"; ".shp.zip"; ".osm.bz2"].
Definition DownloadIndexName : string := "GeoFabrik index of all downloads".
Definition SubregionNameList : string := "GeoFabrik subregion name list".
Definition ContinentSubregionTableName : string := "GeoFabrik continent subregions".
Definition RegionSubregionTier : string := "GeoFabrik region-subregion tier".
Definition DownloadCatalogue : string := "GeoFabrik downloads catalogue".

(** *** pyhelpers glue *)

(** [confirmed(prompt, confirmation_required=...)]: asks only when
    confirmation is required. *)
Definition confirmed (p : prompt) (confirmation_required : bool) : M bool :=
  if confirmation_required then _ ← emit (EvAsk p); mret (user_confirms W p)
  else mret true.

Definition print_if (c : bool) (m : message) : M unit :=
  if c then emit (EvPrint m) else mret ().

Definition truthy (verbose : nat) : bool := negb (verbose =? 0)%nat.

(** [save_pickle(data, path)] for each of the five artefacts. *)
Definition save_pickle (name : string) (store : State → State) : M unit := λ s,
  if save_pickle_succeeds W name
  then Return () (log (EvSavePickle name true) (store s))
  else Return () (log (EvSavePickle name false) s).

Definition store_download_index (v : list string) (s : State) : State :=
  mkState (Some v) (pk_name_list s) (pk_continents s) (pk_tier s)
          (pk_catalogue s) (files s) (history s).
Definition store_name_list (v : list string) (s : State) : State :=
  mkState (pk_download_index s) (Some v) (pk_continents s) (pk_tier s)
          (pk_catalogue s) (files s) (history s).
Definition store_continents (v : PyDict) (s : State) : State :=
  mkState (pk_download_index s) (pk_name_list s) (Some v) (pk_tier s)
          (pk_catalogue s) (files s) (history s).
Definition store_tier (v : PyDict * list string) (s : State) : State :=
  mkState (pk_download_index s) (pk_name_list s) (pk_continents s) (Some v)
          (pk_catalogue s) (files s) (history s).
Definition store_catalogue (v : DataFrame) (s : State) : State :=
  mkState (pk_download_index s) (pk_name_list s) (pk_continents s) (pk_tier s)
          (Some v) (files s) (history s).
Definition add_file (path : string) (s : State) : State :=
  mkState (pk_download_index s) (pk_name_list s) (pk_continents s) (pk_tier s)
          (pk_catalogue s) ({[ path ]} ∪ files s) (history s).

(** *** get_subregion_table *)

(** The classes named by
    [except (ValueError, TypeError, ConnectionRefusedError, ConnectionError)]. *)
Definition caught_by_get_subregion_table (e : exn) : bool :=
  match e with
  | ValueError | TypeError | ConnectionRefusedError | ConnectionError => true
  | _ => false
  end.

(** Returns the table, or [None] when the [try] block raised one of the four
    classes; any other exception leaves the function. *)
Definition get_subregion_table (url : string) : M (option Table) :=
  _ ← emit (EvFetch url);
  match scrape_subregion_table W url with
  | Ok subregion_table => mret (Some subregion_table)
  | Err e => if caught_by_get_subregion_table e then mret None else raise e
  end.

(** *** get_index_of_all_downloads *)

Definition get_index_of_all_downloads
    (update confirmation_required : bool) (verbose : nat) : M (option (list string)) :=
  s ← get_state;
  match pk_download_index s, update with
  | Some download_index, false => mret (Some download_index)
  | _, _ =>
      ok ← confirmed AskGetIndex confirmation_required;
      if ok : bool then
        try_except
          (download_index ← lift_result (read_download_index W);
           _ ← save_pickle DownloadIndexName (store_download_index download_index);
           mret (Some download_index))
          (λ e, _ ← emit (EvPrint (MsgFailed e)); mret None)
      else
        _ ← print_if (truthy verbose) (MsgNoData DownloadIndexName); mret None
  end.

(** *** get_subregion_name_list *)

Definition get_subregion_name_list
    (update confirmation_required : bool) (verbose : nat) : M (list string) :=
  s ← get_state;
  match pk_name_list s, update with
  | Some subregion_name_list, false => mret subregion_name_list
  | _, _ =>
      ok ← confirmed AskGetNameList confirmation_required;
      if ok : bool then
        download_index ← get_index_of_all_downloads update false verbose;
        match download_index with
        | Some subregion_name_list =>
            _ ← save_pickle SubregionNameList (store_name_list subregion_name_list);
            mret subregion_name_list
        | None => raise AttributeError
        end
      else
        _ ← print_if (truthy verbose) (MsgNoData SubregionNameList); mret []
  end.

(** *** regulate_input_subregion_name *)

Definition regulate_input_subregion_name (subregion_name : string) : M (option string) :=
  subregion_names ← get_subregion_name_list false true 0;
  if os_path_isdir W (os_path_dirname W subregion_name)
     || negb (bool_decide (urlparse_path W subregion_name = ""))
  then mret (find_similar_str W (os_path_basename W subregion_name) subregion_names)
  else mret (find_similar_str W subregion_name subregion_names).

(** *** get_continents_subregion_tables *)

Definition table_value (t : option Table) : PyVal :=
  match t with Some t => VTable t | None => VNone end.

Definition get_continents_subregion_tables
    (update confirmation_required : bool) (verbose : nat) : M (option PyDict) :=
  s ← get_state;
  match pk_continents s, update with
  | Some subregion_tables, false => mret (Some subregion_tables)
  | _, _ =>
      ok ← confirmed AskCollectContinents confirmation_required;
      if ok : bool then
        try_except
          (_ ← emit (EvFetch URL);
           soup ← lift_result (scrape_home_page W);
           let continent_names := soup.*1 in
           let continent_links := soup.*2 in
           tables ← for_each get_subregion_table continent_links;
           let subregion_tables := dict_zip continent_names (table_value <$> tables) in
           _ ← save_pickle ContinentSubregionTableName (store_continents subregion_tables);
           mret (Some subregion_tables))
          (λ e, _ ← emit (EvPrint (MsgFailed e)); mret None)
      else
        _ ← print_if (truthy verbose) (MsgNoData ContinentSubregionTableName); mret None
  end.

(** *** get_region_subregion_tier *)

(** The first loop of [compile_region_subregion_tier].  [update_nested_dict]
    writes the set of names into [sub_reg_tbls] itself and returns that same
    dict, so from the first table on [region_subregion_tiers] is
    [sub_reg_tbls]; the state is (sub_reg_tbls, region_subregion_tiers,
    non_subregions_list). *)
Definition classify_region (st : PyDict * PyDict * list string) (kv : string * PyVal)
    : PyDict * PyDict * list string :=
  match kv.2 with
  | VTable v =>
      let updated := dict_set kv.1 (VSet (unique_everseen (Subregion <$> v))) st.1.1 in
      (updated, updated, st.2)
  | _ => (st.1.1, st.1.2, st.2 ++ [kv.1])
  end.

Definition classify_regions (sub_reg_tbls : PyDict) : PyDict * PyDict * list string :=
  foldl classify_region (sub_reg_tbls, sub_reg_tbls, []) sub_reg_tbls.

(** The body of the nested function [compile_region_subregion_tier] up to
    the statement that removes the repeated names: the result is
    [region_subregion_tiers] and [non_subregions_list] as they stand there.
    [recurse] is the recursive call of line 442.  The [while] loop runs its
    [for] loop once: that loop pops every key of [having_subregions] from the
    deep copy the [while] tests. *)
Definition traverse_regions
    (recurse : PyDict → M (PyDict * list string)) (sub_reg_tbls : PyDict)
    : M (PyDict * list string) :=
  let '(_, region_subregion_tiers, non_subregions_list) :=
    classify_regions sub_reg_tbls in
  let having_subregions :=
    foldl (λ d x, dict_pop x d) sub_reg_tbls non_subregions_list in
  fold_each
    (λ st kv,
       match kv.2 with
       | VTable subregion_table =>
           let subregion_names := Subregion <$> subregion_table in
           let subregion_links := SubregionURL <$> subregion_table in
           tables ← for_each get_subregion_table subregion_links;
           let sub_subregion_tables :=
             dict_zip subregion_names (table_value <$> tables) in
           '(subregion_index, without_subregion_) ← recurse sub_subregion_tables;
           mret (dict_set kv.1 (VDict subregion_index) st.1,
                 st.2 ++ without_subregion_)
       | _ => raise AttributeError
       end)
    having_subregions (region_subregion_tiers, non_subregions_list).

(** [compile_region_subregion_tier]: the traversal, then
    [list(more_itertools.unique_everseen(non_subregions_list))].  The
    recursion follows the pages and is bounded by [fuel] only. *)
Fixpoint compile_region_subregion_tier (fuel : nat) (sub_reg_tbls : PyDict)
    : M (PyDict * list string) :=
  match fuel with
  | 0 => diverge
  | S fuel' =>
      '(region_subregion_tiers, non_subregions_list) ←
        traverse_regions (compile_region_subregion_tier fuel') sub_reg_tbls;
      mret (region_subregion_tiers, unique_everseen non_subregions_list)
  end.

Definition get_region_subregion_tier
    (fuel : nat) (update confirmation_required : bool) (verbose : nat)
    : M (option (PyDict * list string)) :=
  s ← get_state;
  match pk_tier s, update with
  | Some tier, false => mret (Some tier)
  | _, _ =>
      ok ← confirmed AskCompileTier confirmation_required;
      if ok : bool then
        try_except
          (subregion_tables ← get_continents_subregion_tables update true 0;
           match subregion_tables with
           | Some subregion_tables =>
               tier ← compile_region_subregion_tier fuel subregion_tables;
               _ ← save_pickle RegionSubregionTier (store_tier tier);
               mret (Some tier)
           | None => raise AttributeError
           end)
          (λ e, _ ← emit (EvPrint (MsgFailed e)); mret None)
      else
        _ ← print_if (truthy verbose) (MsgNoData RegionSubregionTier); mret None
  end.

(** *** get_subregion_downloads_catalogue *)

(** [pd.concat(tables, ignore_index=True)]: [None] entries are dropped, and
    a list with no frame at all is an error. *)
Definition pd_concat (tables : list (option Table)) : result DataFrame :=
  match omap id tables with
  | [] => Err ValueError
  | frames => Ok (imap (λ i r, (i, r)) (concat frames))
  end.

(** [df.drop_duplicates()]: a row equal in every column to an earlier row is
    removed; the labels of the others stay. *)
Fixpoint drop_duplicates_from (seen : list Row) (df : DataFrame) : DataFrame :=
  match df with
  | [] => []
  | ir :: df' =>
      if decide (ir.2 ∈ seen) then drop_duplicates_from seen df'
      else ir :: drop_duplicates_from (ir.2 :: seen) df'
  end.

Definition drop_duplicates (df : DataFrame) : DataFrame := drop_duplicates_from [] df.

(** [df[df.Subregion.duplicated(keep=False)]]: every row whose name occurs
    more than once. *)
Definition name_count (name : string) (df : DataFrame) : nat :=
  length (filter (λ ir, Subregion ir.2 = name) df).

Definition duplicated_rows (df : DataFrame) : DataFrame :=
  filter (λ ir, (2 ≤ name_count (Subregion ir.2) df)%nat) df.

Definition nbsp : ascii := ascii_of_nat 160.

(** The lambda mapped over the size column: [x.strip] on [None] raises. *)
Definition parsed_size (x : option string) : result N :=
  match x with
  | None => Err AttributeError
  | Some x => parse_size W (replace nbsp " " (strip ")" (strip "(" x)))
  end.

(** [df.drop(idx)]: every label must be present. *)
Definition drop_labels (idx : list nat) (df : DataFrame) : result DataFrame :=
  if forallb (λ i, bool_decide (i ∈ df.*1)) idx
  then Ok (filter (λ ir, ir.1 ∉ idx) df)
  else Err KeyError.

(** The body of [for i in range(0, 2, len(duplicated))]. *)
Definition drop_smallest_in_slice (duplicated : DataFrame)
    (subregion_downloads_catalogue : DataFrame) (i : nat) : result DataFrame :=
  let temp := take 2 (drop i duplicated) in
  size ← map_result (λ ir, parsed_size (osm_pbf_Size ir.2)) temp;
  match size with
  | [] => Ok subregion_downloads_catalogue
  | x :: xs =>
      let size_min := foldr N.min x xs in
      let idx := (filter (λ p, p.2 = size_min) (zip temp.*1 size)).*1 in
      drop_labels idx subregion_downloads_catalogue
  end.

(** Lines 548 to 561: concatenation, exact duplicates, name duplicates and
    the new index. *)
Definition compact_catalogue (avail_subregion_url_tables : list (option Table))
    : result DataFrame :=
  subregion_downloads_catalogue ← pd_concat avail_subregion_url_tables;
  let subregion_downloads_catalogue := drop_duplicates subregion_downloads_catalogue in
  let duplicated := duplicated_rows subregion_downloads_catalogue in
  match duplicated with
  | [] => Ok subregion_downloads_catalogue
  | _ =>
      indices ← py_range 0 2 (length duplicated);
      subregion_downloads_catalogue ←
        fold_result (drop_smallest_in_slice duplicated) indices
                    subregion_downloads_catalogue;
      Ok (imap (λ i ir, (i, ir.2)) subregion_downloads_catalogue)
  end.

(** One pass of the [for] loop inside [while subregion_url_tables]: the state
    is (subregion_url_tables_, avail_subregion_url_tables); the whole of
    [subregion_url_tables_] is appended to the available tables at every
    iteration. *)
Definition crawl_generation (subregion_url_tables avail_subregion_url_tables : list Table)
    : M (list Table * list Table) :=
  fold_each
    (λ st subregion_url_table,
       let subregion_urls := SubregionURL <$> subregion_url_table in
       subregion_url_tables_0 ← for_each get_subregion_table subregion_urls;
       let subregion_url_tables_ := st.1 ++ omap id subregion_url_tables_0 in
       mret (subregion_url_tables_, st.2 ++ subregion_url_tables_))
    subregion_url_tables ([], avail_subregion_url_tables).

(** [while subregion_url_tables: ...] *)
Fixpoint crawl (fuel : nat) (subregion_url_tables avail_subregion_url_tables : list Table)
    : M (list Table) :=
  match subregion_url_tables with
  | [] => mret avail_subregion_url_tables
  | _ =>
      match fuel with
      | 0 => diverge
      | S fuel' =>
          '(subregion_url_tables_, avail_subregion_url_tables) ←
            crawl_generation subregion_url_tables avail_subregion_url_tables;
          crawl fuel' subregion_url_tables_ avail_subregion_url_tables
      end
  end.

Definition get_subregion_downloads_catalogue
    (fuel : nat) (update confirmation_required : bool) (verbose : nat)
    : M (option DataFrame) :=
  s ← get_state;
  match pk_catalogue s, update with
  | Some subregion_downloads_catalogue, false => mret (Some subregion_downloads_catalogue)
  | _, _ =>
      ok ← confirmed AskCollectCatalogue confirmation_required;
      if ok : bool then
        try_except
          (_ ← emit (EvFetch URL);
           soup ← lift_result (scrape_home_page W);
           let avail_subregion_urls := soup.*2 in
           avail_subregion_url_tables_0 ← for_each get_subregion_table avail_subregion_urls;
           let avail_subregion_url_tables := omap id avail_subregion_url_tables_0 in
           avail_subregion_url_tables ←
             crawl fuel avail_subregion_url_tables avail_subregion_url_tables;
           home_subregion_url_table ← get_subregion_table URL;
           subregion_downloads_catalogue ←
             lift_result (compact_catalogue
                            ((Some <$> avail_subregion_url_tables)
                               ++ [home_subregion_url_table]));
           _ ← save_pickle DownloadCatalogue (store_catalogue subregion_downloads_catalogue);
           mret (Some subregion_downloads_catalogue))
          (λ e, _ ← emit (EvPrint (MsgFailed e)); mret None)
      else
        _ ← print_if (truthy verbose) (MsgNoData DownloadCatalogue); mret None
  end.

(** *** get_subregion_download_url *)

(** A column of the catalogue once [Subregion] is the index. *)
Definition column (name : string) (r : Row) : result (option string) :=
  if decide (name = ".osm.pbf") then Ok (osm_pbf r)
  else if decide (name = ".shp.zip") then Ok (shp_zip r)
  else if decide (name = ".osm.bz2") then Ok (osm_bz2 r)
  else if decide (name = ".osm.pbf.Size") then Ok (osm_pbf_Size r)
  else if decide (name = "SubregionURL") then Ok (Some (SubregionURL r))
  else Err KeyError.

(** [index.loc[label, name]] with [Subregion] as the index. *)
Definition loc (index : DataFrame) (label name : string) : result Cell :=
  cells ← map_result (λ ir, column name ir.2)
                     (filter (λ ir, Subregion ir.2 = label) index);
  match cells with
  | [] => Err KeyError
  | [c] => Ok (Scalar c)
  | _ => Ok (Series cells)
  end.

(** [not subregion_name_] *)
Definition not_identified (subregion_name_ : option string) : bool :=
  match subregion_name_ with
  | None => true
  | Some n => bool_decide (n = "")
  end.

(** Lines 625 to 635, once [file_format_] has passed the assertion: the
    catalogue, the name, and the cell at (name, format). *)
Definition lookup_download_url
    (fuel : nat) (subregion_name file_format_ : string) (update : bool) (verbose : nat)
    : M (string * Cell) :=
  subregion_downloads_index ← get_subregion_downloads_catalogue fuel update true verbose;
  match subregion_downloads_index with
  | None => raise AttributeError
  | Some subregion_downloads_index =>
      subregion_name_ ← regulate_input_subregion_name subregion_name;
      if not_identified subregion_name_ then raise ValueError
      else
        let subregion_name_ := default "" subregion_name_ in
        download_url ← lift_result (loc subregion_downloads_index
                                        subregion_name_ file_format_);
        mret (subregion_name_, download_url)
  end.

(** Lines 621 to 623, then the lookup. *)
Definition get_subregion_download_url
    (fuel : nat) (subregion_name osm_file_format : string) (update : bool) (verbose : nat)
    : M (string * Cell) :=
  let file_format_ := find_similar_str W osm_file_format ValidFileFormats in
  match file_format_ with
  | Some file_format_ =>
      if decide (file_format_ ∈ ValidFileFormats)
      then lookup_download_url fuel subregion_name file_format_ update verbose
      else raise AssertionError
  | None => raise AssertionError
  end.

(** *** get_default_osm_filename *)

Definition get_default_osm_filename
    (fuel : nat) (subregion_name osm_file_format : string) (update : bool) (verbose : nat)
    : M string :=
  '(_, download_url) ← get_subregion_download_url fuel subregion_name osm_file_format update 0;
  match download_url with
  | Scalar None => mret (lower (replace " " "-" subregion_name) +:+ osm_file_format)
  | Scalar (Some download_url) => mret (os_path_basename W download_url)
  | Series _ => raise TypeError
  end.

(** *** get_default_path_to_osm_file *)

(** The arguments handed to [cd_dat_geofabrik]: every segment of the URL path
    but the last, each replaced by the most similar subregion name, the
    segment [us] by [United States]. *)
Definition directory_segments (subregion_names parsed_path : list string) : list (option string) :=
  (λ x, if decide (x ≠ "us") then find_similar_str W x subregion_names
        else Some "United States")
    <$> take (length parsed_path - 1) parsed_path.

(** Lines 728 to 731: the segments of the URL path, with the name in front
    when there is only one. *)
Definition parsed_path_of (subregion_name_ download_url : string) : list string :=
  let parsed_path := split "/" (lstrip "/" (urlparse_path W download_url)) in
  if decide (length parsed_path = 1) then subregion_name_ :: parsed_path
  else parsed_path.

(** Returns [None] for the pair [(None, None)]. *)
Definition get_default_path_to_osm_file
    (fuel : nat) (subregion_name osm_file_format : string) (mkdir update : bool) (verbose : nat)
    : M (option (string * string)) :=
  '(subregion_name_, download_url) ←
    get_subregion_download_url fuel subregion_name osm_file_format update 0;
  match download_url with
  | Scalar None =>
      _ ← print_if (truthy verbose) (MsgNotAvailable osm_file_format subregion_name_);
      mret None
  | Scalar (Some download_url) =>
      let parsed_path := parsed_path_of subregion_name_ download_url in
      subregion_names ← get_subregion_name_list false true 0;
      directory ← lift_result
                    (cd_dat_geofabrik W (directory_segments subregion_names parsed_path) mkdir);
      let default_filename := default "" (last parsed_path) in
      mret (Some (default_filename, os_path_join W directory default_filename))
  | Series _ => raise ValueError
  end.

(** *** retrieve_names_of_subregions_of *)

(** The generator [find_subregions], as the list of what it yields. *)
Fixpoint find_subregions_in (reg_name : option string) (v : PyVal) : list (list string) :=
  match v with
  | VDict reg_sub_idx =>
      (fix items (d : list (string * PyVal)) : list (list string) :=
         match d with
         | [] => []
         | (k, v) :: d' =>
             (if decide (reg_name = Some k) then
                match v with
                | VDict v => [v.*1]
                | _ => [[k]]
                end
              else find_subregions_in reg_name v)
             ++ items d'
         end) reg_sub_idx
  | _ => []
  end.

Definition find_subregions (reg_name : option string) (reg_sub_idx : PyDict)
    : list (list string) :=
  find_subregions_in reg_name (VDict reg_sub_idx).

(** [list(find_subregions(...))[0]] summed over the requested names. *)
Definition subregions_of_each
    (tier : option (PyDict * list string)) (subregion_name : list string) : M (list string) :=
  fold_each
    (λ res region,
       reg_name ← regulate_input_subregion_name region;
       match tier with
       | Some (region_subregion_tier, _) =>
           match find_subregions reg_name region_subregion_tier with
           | found :: _ => mret (res ++ found)
           | [] => raise IndexError
           end
       | None => raise AttributeError
       end)
    subregion_name [].

(** The call with [deep=False]. *)
Definition retrieve_names_of_subregions_of_shallow
    (fuel : nat) (subregion_name : list string) : M (option (list string)) :=
  tier ← get_region_subregion_tier fuel false true 0;
  match subregion_name with
  | [] => mret (snd <$> tier)
  | _ => res ← subregions_of_each tier subregion_name; mret (Some res)
  end.

Definition retrieve_names_of_subregions_of
    (fuel : nat) (subregion_name : list string) (deep : bool) : M (option (list string)) :=
  if deep then
    tier ← get_region_subregion_tier fuel false true 0;
    match subregion_name with
    | [] => mret (snd <$> tier)
    | _ =>
        res ← subregions_of_each tier subregion_name;
        let non_subregions_list := default [] (snd <$> tier) in
        let check_list := filter (λ x, x ∉ non_subregions_list) res in
        res_ ←
          match check_list with
          | [] => mret res
          | _ =>
              fold_each
                (λ res_ region,
                   more ← retrieve_names_of_subregions_of_shallow fuel [region];
                   match more with
                   | Some more => mret (res_ ++ more)
                   | None => raise TypeError
                   end)
                check_list
                (set_iteration_order W
                   (filter (λ x, x ∉ check_list) (unique_everseen res)))
          end;
        mret (Some (unique_everseen res_))
    end
  else retrieve_names_of_subregions_of_shallow fuel subregion_name.

(** *** make_default_sub_subregion_download_dir *)

Definition make_default_sub_subregion_download_dir
    (fuel : nat) (subregion_name osm_file_format : string) (download_dir : option string)
    : M string :=
  download_dir ←
    match download_dir with
    | None =>
        path ← get_default_path_to_osm_file fuel subregion_name ".osm.pbf" false false 0;
        match path with
        | Some (_, path_to_file_) => mret (os_path_dirname W path_to_file_)
        | None => raise TypeError
        end
    | Some _ => mret ""
    end;
  let default_sub_dir :=
    lower (replace " " "-" subregion_name) +:+ os_path_splitext_root W osm_file_format in
  lift_result (cd_dat_geofabrik W [Some download_dir; Some default_sub_dir] false).

(** *** download_subregion_osm_file *)

(** [not download_dir] *)
Definition no_dir (download_dir : option string) : bool :=
  match download_dir with
  | None => true
  | Some d => bool_decide (d = "")
  end.

(** [download_file_from_url(download_url, path_to_file)]: a successful
    download leaves a file at the path; a [download_url] that is not a string
    makes the downloader raise. *)
Definition download_file (download_url : Cell) (path_to_file : string) : M unit := λ s,
  let failed :=
    match download_url with
    | Scalar (Some url) => download_file_from_url W url path_to_file
    | _ => Some OtherException
    end in
  match failed with
  | None => Return () (log (EvDownloadFile download_url path_to_file None)
                           (add_file path_to_file s))
  | Some e => Raise e (log (EvDownloadFile download_url path_to_file (Some e)) s)
  end.

(** The file name and path of the [else] branch (lines 934 to 941); [None]
    stands for the pair [(None, None)]. *)
Definition target_of
    (fuel : nat) (subregion_name_ osm_file_format : string) (download_dir : option string)
    : M (option (string * string)) :=
  if no_dir download_dir then
    get_default_path_to_osm_file fuel subregion_name_ osm_file_format true false 0
  else
    let regulated_dir := regulate_input_data_dir W (default "" download_dir) in
    osm_filename ← get_default_osm_filename fuel subregion_name_ osm_file_format false 0;
    mret (Some (osm_filename, os_path_join W regulated_dir osm_filename)).

(** Lines 943 to 962. *)
Definition fetch_file
    (subregion_name_ osm_file_format : string) (download_url : Cell)
    (osm_filename path_to_file : string)
    (update confirmation_required : bool) (verbose : nat) : M unit :=
  s ← get_state;
  let isfile := bool_decide (path_to_file ∈ files s) in
  if isfile && negb update then
    print_if (truthy verbose)
             (MsgAlreadyAvailable osm_filename subregion_name_ (os_path_relpath W path_to_file))
  else
    ok ← confirmed (AskDownload osm_file_format subregion_name_) confirmation_required;
    if ok : bool then
      _ ← print_if (truthy verbose) (MsgOperation isfile osm_filename);
      try_except
        (_ ← download_file download_url path_to_file;
         print_if (truthy verbose) MsgDone)
        (λ e, emit (EvPrint (MsgFailed e)))
    else
      print_if (verbose =? 2)%nat (MsgCancelled isfile osm_filename).

(** The body of [for sub_reg_name in subregion_name], up to the sleep;
    [recurse] is the recursive call of line 929 and the result is the value
    [download_dir] holds for the next name. *)
Definition download_item
    (recurse : list string → string → M unit)
    (fuel : nat) (sub_reg_name osm_file_format : string) (download_dir : option string)
    (update confirmation_required deep_retry : bool) (verbose : nat)
    : M (option string) :=
  '(subregion_name_, download_url) ←
    get_subregion_download_url fuel sub_reg_name osm_file_format false 0;
  match download_url with
  | Scalar None =>
      _ ← print_if (truthy verbose)
                   (MsgNotAvailableTrySubregions osm_file_format subregion_name_);
      sub_subregions ← retrieve_names_of_subregions_of fuel [subregion_name_] deep_retry;
      download_dir ←
        (if no_dir download_dir then
           path ← get_default_path_to_osm_file fuel subregion_name_ ".osm.pbf" false false 0;
           match path with
           | Some (_, path_to_file_) => mret (Some (os_path_dirname W path_to_file_))
           | None => raise TypeError
           end
         else mret download_dir);
      download_dir_ ←
        make_default_sub_subregion_download_dir fuel subregion_name_ osm_file_format
                                                download_dir;
      match sub_subregions with
      | Some sub_subregions =>
          _ ← recurse sub_subregions download_dir_; mret download_dir
      | None => raise TypeError
      end
  | _ =>
      target ← target_of fuel subregion_name_ osm_file_format download_dir;
      match target with
      | Some (osm_filename, path_to_file) =>
          _ ← fetch_file subregion_name_ osm_file_format download_url osm_filename
                         path_to_file update confirmation_required verbose;
          mret download_dir
      | None => raise TypeError
      end
  end.

(** The [for] loop with the sleep that ends each round. *)
Fixpoint download_each
    (recurse : list string → string → M unit)
    (fuel : nat) (subregion_name : list string) (osm_file_format : string)
    (download_dir : option string) (update confirmation_required deep_retry : bool)
    (interval_sec verbose : nat) : M unit :=
  match subregion_name with
  | [] => mret ()
  | sub_reg_name :: rest =>
      download_dir ← download_item recurse fuel sub_reg_name osm_file_format download_dir
                                   update confirmation_required deep_retry verbose;
      _ ← (if (interval_sec =? 0)%nat then mret () else emit (EvSleep interval_sec));
      download_each recurse fuel rest osm_file_format download_dir
                    update confirmation_required deep_retry interval_sec verbose
  end.

(** [download_subregion_osm_file]; the recursive call passes neither
    [deep_retry] nor [interval_sec], which take their defaults.  [depth]
    bounds the nesting of recursive calls, [fuel] the page crawls of the
    catalogue and tier builders. *)
Fixpoint download_subregion_osm_file
    (depth fuel : nat) (subregion_name : list string) (osm_file_format : string)
    (download_dir : option string) (update confirmation_required deep_retry : bool)
    (interval_sec verbose : nat) : M unit :=
  match depth with
  | 0 => diverge
  | S depth' =>
      download_each
        (λ sub_subregions download_dir_,
           download_subregion_osm_file depth' fuel sub_subregions osm_file_format
                                       (Some download_dir_) update confirmation_required
                                       false 5 verbose)
        fuel subregion_name osm_file_format download_dir
        update confirmation_required deep_retry interval_sec verbose
  end.

End GeoFabrik.

(** ** A sample world

    A small, concrete instance of the collaborators, used to run the
    embedding: POSIX path functions, a similarity match that prefers equal
    strings (ignoring case), then candidates that contain the query, a parser
    for sizes written as a whole number and a decimal unit, and a handful of
    pages. *)

Module Sample.

(** [posixpath.basename] *)
Definition basename (p : string) : string := default "" (last (split "/" p)).

(** [posixpath.dirname] *)
Definition dirname (p : string) : string :=
  let pieces := split "/" p in
  let head := take (length pieces - 1) pieces in
  match head with
  | [] => ""
  | _ =>
      let joined := foldr (λ a b, a +:+ "/" +:+ b) "" head in
      match rstrip "/" joined with
      | "" => joined
      | stripped => stripped
      end
  end.

(** [posixpath.join] of two components. *)
Definition join (a b : string) : string :=
  match b with
  | String "/" _ => b
  | _ =>
      match a with
      | "" => b
      | _ => if decide (last (String.list_ascii_of_string a) = Some "/"%char)
             then a +:+ b else a +:+ "/" +:+ b
      end
  end.

(** [os.path.splitext(x)[0]] on a name without directory part: the text
    before the last dot that follows a character other than a dot. *)
Fixpoint splitext_root_from (leading : bool) (s : string) : string :=
  match s with
  | "" => ""
  | String a s' =>
      if decide (a = "."%char) then
        if leading then String a (splitext_root_from true s')
        else if bool_decide ("."%char ∈ String.list_ascii_of_string s')
             then String a (splitext_root_from false s') else ""
      else String a (splitext_root_from false s')
  end.

Definition splitext_root (s : string) : string := splitext_root_from true s.

(** The path of an absolute http URL without query or fragment: what follows
    the host. *)
Definition url_path (u : string) : string :=
  match split "/" u with
  | scheme :: "" :: host :: rest =>
      if decide (scheme = "http:" ∨ scheme = "https:")
      then foldr (λ a b, "/" +:+ a +:+ b) "" rest
      else u
  | _ => u
  end.

Fixpoint contains (needle hay : string) : bool :=
  String.prefix needle hay
  || match hay with
     | "" => false
     | String _ hay' => contains needle hay'
     end.

Definition similarity (x a : string) : nat :=
  if decide (lower x = lower a) then 2
  else if contains (lower x) (lower a) then 1 else 0.

(** The first candidate of the highest similarity; [None] for an empty
    list. *)
Fixpoint most_similar (x : string) (lookup_list : list string) : option string :=
  match lookup_list with
  | [] => None
  | a :: l =>
      match most_similar x l with
      | Some b => if (similarity x a <? similarity x b)%nat then Some b else Some a
      | None => Some a
      end
  end.

Fixpoint digits (s : string) (acc : N) : N * string :=
  match s with
  | String a s' =>
      let n := nat_of_ascii a in
      if ((48 <=? n) && (n <=? 57))%nat
      then digits s' (10 * acc + N.of_nat (n - 48))%N
      else (acc, s)
  | "" => (acc, "")
  end.

(** Sizes such as [12 MB]: a whole number and a decimal unit. *)
Definition size_of_string (s : string) : result N :=
  match s with
  | "" => Err OtherException
  | String a _ =>
      let n := nat_of_ascii a in
      if ((48 <=? n) && (n <=? 57))%nat then
        let '(value, unit) := digits s 0%N in
        let unit := lstrip " " unit in
        if decide (unit = "" ∨ unit = "B") then Ok value
        else if decide (unit = "KB") then Ok (value * 1000)%N
        else if decide (unit = "MB") then Ok (value * 1000000)%N
        else if decide (unit = "GB") then Ok (value * 1000000000)%N
        else Err OtherException
      else Err OtherException
  end.

(** [cd_dat_geofabrik]: the segments joined under the data directory; a
    [None] segment is a type error of [os.path.join]. *)
Definition data_dir (segments : list (option string)) (mkdir : bool) : result string :=
  foldl (λ acc seg,
           match acc, seg with
           | Ok path, Some x => Ok (join path x)
           | Ok _, None => Err TypeError
           | Err e, _ => Err e
           end)
        (Ok "dat_GeoFabrik") segments.

Definition geofabrik (page : string) : string := URL +:+ page.

Definition row (name page : string) (pbf size shp : option string) : Row :=
  mkRow name (geofabrik page) (geofabrik <$> pbf) size (geofabrik <$> shp) None.

Definition europe_table : Table :=
  [ row "Great Britain" "europe/great-britain.html"
        (Some "europe/great-britain-latest.osm.pbf") (Some "(1 GB)") None;
    row "Malta" "europe/malta.html"
        (Some "europe/malta-latest.osm.pbf") (Some "(5 MB)")
        (Some "europe/malta-latest-free.shp.zip");
    row "Russian Federation" "russia.html"
        (Some "russia-latest.osm.pbf") (Some "(3 GB)") None ].

Definition asia_table : Table :=
  [ row "Russian Federation" "russia.html"
        (Some "russia-latest.osm.pbf") (Some "(3 GB)") None;
    row "Malta" "asia/malta.html"
        (Some "asia/malta-latest.osm.pbf") (Some "(4 MB)") None ].

Definition great_britain_table : Table :=
  [ row "England" "europe/great-britain/england.html"
        (Some "europe/great-britain/england-latest.osm.pbf") (Some "(900 MB)")
        (Some "europe/great-britain/england-latest-free.shp.zip");
    row "Wales" "europe/great-britain/wales.html"
        (Some "europe/great-britain/wales-latest.osm.pbf") (Some "(90 MB)")
        (Some "europe/great-britain/wales-latest-free.shp.zip") ].

Definition home_table : Table :=
  [ row "Europe" "europe.html" (Some "europe-latest.osm.pbf") (Some "(20 GB)") None;
    row "Asia" "asia.html" (Some "asia-latest.osm.pbf") (Some "(9 GB)") None ].

(** The pages; a page without a subregion table makes [pd.read_html] raise
    [ValueError]. *)
Definition pages (url : string) : result Table :=
  if decide (url = geofabrik "europe.html") then Ok europe_table
  else if decide (url = geofabrik "asia.html") then Ok asia_table
  else if decide (url = geofabrik "europe/great-britain.html") then Ok great_britain_table
  else if decide (url = URL) then Ok home_table
  else Err ValueError.

Definition names : list string :=
  ["Europe"; "Asia"; "Great Britain"; "England"; "Wales"; "Malta";
   "Russian Federation"; "United States of America"].

Definition world : World :=
  {| find_similar_str := most_similar;
     scrape_subregion_table := pages;
     scrape_home_page :=
       Ok [("Europe", geofabrik "europe.html"); ("Asia", geofabrik "asia.html")];
     read_download_index := Ok names;
     user_confirms := λ _, true;
     save_pickle_succeeds := λ _, true;
     download_file_from_url := λ _ _, None;
     parse_size := size_of_string;
     urlparse_path := url_path;
     os_path_isdir := λ _, false;
     os_path_dirname := dirname;
     os_path_basename := basename;
     os_path_join := join;
     os_path_splitext_root := splitext_root;
     os_path_relpath := λ p, p;
     cd_dat_geofabrik := data_dir;
     regulate_input_data_dir := λ d, d;
     set_iteration_order := λ l, l |}.

(** A fresh installation: nothing pickled, nothing downloaded. *)
Definition fresh : State := mkState None None None None None ∅ [].

(** The state after every artefact has been built and pickled, with a clean
    history. *)
Definition installed : State :=
  let run {A} (m : M A) (s : State) : State :=
    match m s with Return _ s' => s' | _ => s end in
  let s := run (get_subregion_name_list world false false 0) fresh in
  let s := run (get_region_subregion_tier world 5 false false 0) s in
  let s := run (get_subregion_downloads_catalogue world 5 false false 0) s in
  mkState (pk_download_index s) (pk_name_list s) (pk_continents s) (pk_tier s)
          (pk_catalogue s) ∅ [].

(** The same installation with the Malta extract already downloaded. *)
Definition malta_path : string := "dat_GeoFabrik/Europe/malta-latest.osm.pbf".

Definition installed_with_malta : State :=
  mkState (pk_download_index installed) (pk_name_list installed) (pk_continents installed)
          (pk_tier installed) (pk_catalogue installed) {[ malta_path ]} [].

(** The sample world with another downloader, and with other pages. *)
Definition with_downloader (download : string → string → option exn) (W : World) : World :=
  {| find_similar_str := find_similar_str W;
     scrape_subregion_table := scrape_subregion_table W;
     scrape_home_page := scrape_home_page W;
     read_download_index := read_download_index W;
     user_confirms := user_confirms W;
     save_pickle_succeeds := save_pickle_succeeds W;
     download_file_from_url := download;
     parse_size := parse_size W;
     urlparse_path := urlparse_path W;
     os_path_isdir := os_path_isdir W;
     os_path_dirname := os_path_dirname W;
     os_path_basename := os_path_basename W;
     os_path_join := os_path_join W;
     os_path_splitext_root := os_path_splitext_root W;
     os_path_relpath := os_path_relpath W;
     cd_dat_geofabrik := cd_dat_geofabrik W;
     regulate_input_data_dir := regulate_input_data_dir W;
     set_iteration_order := set_iteration_order W |}.

Definition with_pages (scrape : string → result Table) (W : World) : World :=
  {| find_similar_str := find_similar_str W;
     scrape_subregion_table := scrape;
     scrape_home_page := scrape_home_page W;
     read_download_index := read_download_index W;
     user_confirms := user_confirms W;
     save_pickle_succeeds := save_pickle_succeeds W;
     download_file_from_url := download_file_from_url W;
     parse_size := parse_size W;
     urlparse_path := urlparse_path W;
     os_path_isdir := os_path_isdir W;
     os_path_dirname := os_path_dirname W;
     os_path_basename := os_path_basename W;
     os_path_join := os_path_join W;
     os_path_splitext_root := os_path_splitext_root W;
     os_path_relpath := os_path_relpath W;
     cd_dat_geofabrik := cd_dat_geofabrik W;
     regulate_input_data_dir := regulate_input_data_dir W;
     set_iteration_order := set_iteration_order W |}.

(** The subregion tables of the two continents, as
    [get_continents_subregion_tables] returns them. *)
Definition continents : PyDict :=
  [("Europe", VTable europe_table); ("Asia", VTable asia_table)].

(** The page of Malta answers with an HTTP error. *)
Definition malta_gone : World :=
  with_pages (λ url, if decide (url = geofabrik "europe/malta.html") then Err HTTPError
                     else pages url) world.

(** The page of Malta refuses the connection. *)
Definition malta_refused : World :=
  with_pages (λ url, if decide (url = geofabrik "europe/malta.html")
                     then Err ConnectionRefusedError else pages url) world.

(** Three listings in which two names are each listed twice, with different
    sizes: Georgia the country and Georgia the state, and the Russian
    Federation under Europe and under Asia. *)
Definition georgia_country : Row :=
  row "Georgia" "europe/georgia.html"
      (Some "europe/georgia-latest.osm.pbf") (Some "(100 MB)") None.
Definition russia_in_europe : Row :=
  row "Russian Federation" "russia.html"
      (Some "russia-latest.osm.pbf") (Some "(3 GB)") None.
Definition russia_in_asia : Row :=
  row "Russian Federation" "asia/russia.html"
      (Some "asia/russia-latest.osm.pbf") (Some "(2 GB)") None.
Definition georgia_state : Row :=
  row "Georgia" "north-america/us/georgia.html"
      (Some "north-america/us/georgia-latest.osm.pbf") (Some "(200 MB)") None.

Definition cross_listed : list (option Table) :=
  [Some [georgia_country; russia_in_europe]; Some [russia_in_asia]; Some [georgia_state]].

(** A catalogue whose one URL spells the segment of the United States in
    capitals, with the names to match it against. *)
Definition capital_names : list string :=
  ["North America"; "United States of America"; "Alaska"].

Definition capital_catalogue : DataFrame :=
  [(0, row "Alaska" "north-america/US/alaska.html"
           (Some "north-america/US/alaska-latest.osm.pbf") (Some "(100 MB)") None)].

Definition capital_installation : State :=
  mkState (Some capital_names) (Some capital_names) None None (Some capital_catalogue) ∅ [].

(** The same with the segment in lower case, as the site spells it. *)
Definition lower_case_catalogue : DataFrame :=
  [(0, row "Alaska" "north-america/us/alaska.html"
           (Some "north-america/us/alaska-latest.osm.pbf") (Some "(100 MB)") None)].

Definition lower_case_installation : State :=
  mkState (Some capital_names) (Some capital_names) None None (Some lower_case_catalogue)
          ∅ [].

(** The directory the fallback creates for the Russian Federation. *)
Definition russia_shp_dir : string := "dat_GeoFabrik/russian-federation.shp".

(** A user who answers no to every question. *)
Definition refusing : World :=
  {| find_similar_str := find_similar_str world;
     scrape_subregion_table := scrape_subregion_table world;
     scrape_home_page := scrape_home_page world;
     read_download_index := read_download_index world;
     user_confirms := λ _, false;
     save_pickle_succeeds := save_pickle_succeeds world;
     download_file_from_url := download_file_from_url world;
     parse_size := parse_size world;
     urlparse_path := urlparse_path world;
     os_path_isdir := os_path_isdir world;
     os_path_dirname := os_path_dirname world;
     os_path_basename := os_path_basename world;
     os_path_join := os_path_join world;
     os_path_splitext_root := os_path_splitext_root world;
     os_path_relpath := os_path_relpath world;
     cd_dat_geofabrik := cd_dat_geofabrik world;
     regulate_input_data_dir := regulate_input_data_dir world;
     set_iteration_order := set_iteration_order world |}.

(** The download index cannot be read. *)
Definition without_index : World :=
  {| find_similar_str := find_similar_str world;
     scrape_subregion_table := scrape_subregion_table world;
     scrape_home_page := scrape_home_page world;
     read_download_index := Err OtherException;
     user_confirms := user_confirms world;
     save_pickle_succeeds := save_pickle_succeeds world;
     download_file_from_url := download_file_from_url world;
     parse_size := parse_size world;
     urlparse_path := urlparse_path world;
     os_path_isdir := os_path_isdir world;
     os_path_dirname := os_path_dirname world;
     os_path_basename := os_path_basename world;
     os_path_join := os_path_join world;
     os_path_splitext_root := os_path_splitext_root world;
     os_path_relpath := os_path_relpath world;
     cd_dat_geofabrik := cd_dat_geofabrik world;
     regulate_input_data_dir := regulate_input_data_dir world;
     set_iteration_order := set_iteration_order world |}.

(** The subregions of Great Britain, none of which has a table. *)
Definition great_britain_subregions : PyDict := [("England", VNone); ("Wales", VNone)].

(** No connection: every download raises. *)
Definition offline : World := with_downloader (λ _ _, Some ConnectionError) world.

(** The installation of a user whose list of subregion names is empty. *)
Definition installed_without_names : State :=
  mkState (pk_download_index installed) (Some []) (pk_continents installed)
          (pk_tier installed) (pk_catalogue installed) ∅ [].

End Sample.

(** ** Vocabulary of the statements *)

Definition is_download (e : event) : bool :=
  match e with EvDownloadFile _ _ _ => true | _ => false end.

(** The calls of [download_file_from_url] recorded in a state. *)
Definition downloader_calls (s : State) : list event :=
  List.filter is_download (history s).

(** A computation that neither calls the downloader nor touches the
    downloaded files. *)
Definition quiet {A} (m : M A) : Prop :=
  ∀ s, match m s with
       | Return _ s' | Raise _ s' =>
           files s' = files s ∧ downloader_calls s' = downloader_calls s
       | Diverge => True
       end.

(** What the downloader answers to the value of [download_url]. *)
Definition download_failure (W : World) (download_url : Cell) (path_to_file : string)
    : option exn :=
  match download_url with
  | Scalar (Some url) => download_file_from_url W url path_to_file
  | _ => Some OtherException
  end.

(** The names the first loop of [compile_region_subregion_tier] puts on the
    list: the keys whose value is not a table. *)
Definition leaf_key (kv : string * PyVal) : option string :=
  match kv.2 with VTable _ => None | _ => Some kv.1 end.

(** Two states with the same pickled artefacts and the same downloaded
    files: they differ in their history at most. *)
Definition same_artefacts (s t : State) : Prop :=
  pk_download_index s = pk_download_index t ∧
  pk_name_list s = pk_name_list t ∧
  pk_continents s = pk_continents t ∧
  pk_tier s = pk_tier t ∧
  pk_catalogue s = pk_catalogue t ∧
  files s = files t.

(** A computation that leaves the artefacts and the files as they are,
    whether it returns or raises. *)
Definition keeps_artefacts {A} (m : M A) : Prop :=
  ∀ s, match m s with
       | Return _ s' | Raise _ s' => same_artefacts s s'
       | Diverge => True
       end.

(** A computation that has changed neither artefact nor file when it
    raises. *)
Definition raises_cleanly {A} (m : M A) : Prop :=
  ∀ s e s', m s = Raise e s' → same_artefacts s s'.

(** A computation from which no exception escapes. *)
Definition never_raises {A} (m : M A) : Prop :=
  ∀ s e s', m s ≠ Raise e s'.

(** The keys of a tier at every depth. *)
Fixpoint keys_in (v : PyVal) : list string :=
  match v with
  | VDict d =>
      (fix items (d : list (string * PyVal)) : list string :=
         match d with
         | [] => []
         | (k, v) :: d' => k :: keys_in v ++ items d'
         end) d
  | _ => []
  end.

Definition all_keys (tier : PyDict) : list string := keys_in (VDict tier).

(** * Properties *)

(** ** Laws of the effect monad *)

Section Laws.

Context {A B : Type}.
Implicit Types (m : M A) (f : A → M B) (s : State).

Lemma bind_Return m f s a s' :
  m s = Return a s' → (m ≫= f) s = f a s'.
Proof. unfold mbind, M_bind. by intros ->. Qed.

Lemma bind_Raise m f s e s' :
  m s = Raise e s' → (m ≫= f) s = Raise e s'.
Proof. unfold mbind, M_bind. by intros ->. Qed.

Lemma bind_Diverge m f s :
  m s = Diverge → (m ≫= f) s = Diverge.
Proof. unfold mbind, M_bind. by intros ->. Qed.

Lemma bind_Return_inv m f s b s2 :
  (m ≫= f) s = Return b s2 →
  ∃ a s1, m s = Return a s1 ∧ f a s1 = Return b s2.
Proof.
  unfold mbind, M_bind. destruct (m s) as [a s1| |]; [|done..].
  intros H. by exists a, s1.
Qed.

Lemma try_except_Return_inv (body : M A) (handler : exn → M A) s a s1 :
  try_except body handler s = Return a s1 →
  body s = Return a s1 ∨ ∃ e s', body s = Raise e s' ∧ handler e s' = Return a s1.
Proof.
  unfold try_except. destruct (body s) as [a' s'|e s'|]; [by left| |done].
  intros H. right. by exists e, s'.
Qed.

End Laws.

(** ** [unique_everseen] *)

Section UniqueEverseen.

Implicit Types (seen l : list string) (x y : string).

Lemma unique_everseen_from_elem seen l x :
  x ∈ unique_everseen_from seen l ↔ x ∈ l ∧ x ∉ seen.
Proof.
  revert seen. induction l as [|a l IH]; intros seen; simpl.
  - split; [by intros ?%elem_of_nil | by intros [?%elem_of_nil _]].
  - destruct (decide (a ∈ seen)) as [Ha|Ha].
    + rewrite IH, elem_of_cons. split; [naive_solver|].
      intros [[->|?] ?]; [done | by split].
    + rewrite !elem_of_cons, IH, elem_of_cons. split.
      * intros [->|[? ?]]; split; auto.
      * intros [[->|?] ?]; [by left|].
        destruct (decide (x = a)) as [->|]; [by left | right; split; auto].
        by intros [?|?].
Qed.

Lemma unique_everseen_from_NoDup seen l : NoDup (unique_everseen_from seen l).
Proof.
  revert seen. induction l as [|a l IH]; intros seen; simpl; [constructor|].
  destruct (decide (a ∈ seen)); [apply IH|].
  constructor; [|apply IH].
  rewrite unique_everseen_from_elem, elem_of_cons. naive_solver.
Qed.

(** If [x] comes before [y] in the result, then the first occurrence of [x]
    in the input comes before every occurrence of [y]. *)
Lemma unique_everseen_from_order seen l n1 x n2 y :
  unique_everseen_from seen l = n1 ++ x :: n2 → y ∈ n2 →
  ∃ l1 l2, l = l1 ++ x :: l2 ∧ x ∉ l1 ∧ y ∉ l1 ∧ y ∈ l2 ∧ x ∉ seen ∧ y ∉ seen.
Proof.
  revert seen n1. induction l as [|a l IH]; intros seen n1; simpl.
  - by destruct n1.
  - destruct (decide (a ∈ seen)) as [Ha|Ha].
    + intros Heq Hy. destruct (IH _ _ Heq Hy) as (l1 & l2 & -> & ? & ? & ? & ? & ?).
      exists (a :: l1), l2. rewrite !not_elem_of_cons. naive_solver.
    + destruct n1 as [|b n1]; simpl; intros [= -> Heq] Hy.
      * subst n2. apply unique_everseen_from_elem in Hy as [Hy Hs].
        apply not_elem_of_cons in Hs as [? ?].
        exists [], l. split_and!; auto using not_elem_of_nil.
      * destruct (IH _ _ Heq Hy) as (l1 & l2 & -> & ? & ? & ? & Hx & Hy').
        apply not_elem_of_cons in Hx as [? ?].
        apply not_elem_of_cons in Hy' as [? ?].
        exists (b :: l1), l2. rewrite !not_elem_of_cons. naive_solver.
Qed.

End UniqueEverseen.

(** ** C8: the leaf names come back without repetition, first seen first *)

(** A call that returns has run the traversal and removed the repeated
    names from what it collected. *)
Lemma compile_region_subregion_tier_Return
    (W : World) (fuel : nat) (sub_reg_tbls : PyDict) (s s' : State)
    (region_subregion_tiers : PyDict) (non_subregions_list : list string) :
  compile_region_subregion_tier W fuel sub_reg_tbls s
    = Return (region_subregion_tiers, non_subregions_list) s' →
  ∃ fuel' collected,
    fuel = S fuel' ∧
    traverse_regions W (compile_region_subregion_tier W fuel') sub_reg_tbls s
      = Return (region_subregion_tiers, collected) s' ∧
    non_subregions_list = unique_everseen collected.
Proof.
  destruct fuel as [|fuel']; [done|]. simpl. intros H.
  apply bind_Return_inv in H as ([tiers collected] & s1 & Htr & Hret).
  injection Hret as -> <- ->. by exists fuel', collected.
Qed.

(** C8.  Whenever [compile_region_subregion_tier] returns, the list of names
    without subregions it returns is the list collected by the traversal with
    every repeated name removed: no name occurs twice, the names are those
    collected, and when [x] stands before [y] in the result, the first
    appearance of [x] during the traversal came before the first appearance
    of [y]. *)
Theorem C8_leaf_names_unique_first_seen
    (W : World) (fuel : nat) (sub_reg_tbls : PyDict) (s s' : State)
    (region_subregion_tiers : PyDict) (non_subregions_list : list string) :
  compile_region_subregion_tier W fuel sub_reg_tbls s
    = Return (region_subregion_tiers, non_subregions_list) s' →
  ∃ fuel' collected,
    fuel = S fuel' ∧
    traverse_regions W (compile_region_subregion_tier W fuel') sub_reg_tbls s
      = Return (region_subregion_tiers, collected) s' ∧
    NoDup non_subregions_list ∧
    (∀ x, x ∈ non_subregions_list ↔ x ∈ collected) ∧
    (∀ n1 x n2 y,
        non_subregions_list = n1 ++ x :: n2 → y ∈ n2 →
        ∃ l1 l2, collected = l1 ++ x :: l2 ∧ x ∉ l1 ∧ y ∉ l1 ∧ y ∈ l2).
Proof.
  intros H.
  apply compile_region_subregion_tier_Return in H as (fuel' & collected & -> & Htr & ->).
  exists fuel', collected. split_and!; [done|done|..].
  - apply unique_everseen_from_NoDup.
  - intros x. unfold unique_everseen. rewrite unique_everseen_from_elem.
    split; [naive_solver|]. intros ?. split; [done|]. apply not_elem_of_nil.
  - intros n1 x n2 y Heq Hy.
    destruct (unique_everseen_from_order _ _ _ _ _ _ Heq Hy)
      as (l1 & l2 & ? & ? & ? & ? & _).
    by exists l1, l2.
Qed.

(** ** C9: the pickled catalogue is reused *)

(** A catalogue that [get_subregion_downloads_catalogue] returns has been
    pickled, provided [save_pickle] managed to write it. *)
Lemma catalogue_persisted
    (W : World) (fuel : nat) (update confirmation_required : bool) (verbose : nat)
    (s s1 : State) (c : DataFrame) :
  get_subregion_downloads_catalogue W fuel update confirmation_required verbose s
    = Return (Some c) s1 →
  save_pickle_succeeds W DownloadCatalogue = true →
  pk_catalogue s1 = Some c.
Proof.
  intros H Hsave. unfold get_subregion_downloads_catalogue in H.
  apply bind_Return_inv in H as (s0 & s0' & [= <- <-] & H).
  destruct (pk_catalogue s) as [c0|] eqn:Hpk; [destruct update|];
    [ | by injection H as -> <- | ];
    (apply bind_Return_inv in H as (ok & s2 & _ & H); destruct ok;
     [ apply try_except_Return_inv in H as [H | (e & s3 & _ & H)];
       [ repeat (apply bind_Return_inv in H as (? & ? & ? & H));
         injection H as -> ->;
         match goal with
         | Hs : save_pickle _ _ _ _ = _ |- _ =>
             unfold save_pickle in Hs; rewrite Hsave in Hs; by simplify_eq
         end
       | by apply bind_Return_inv in H as (? & ? & _ & H) ]
     | by apply bind_Return_inv in H as (? & ? & _ & H) ]).
Qed.

(** C9.  When a call without [update] has returned a catalogue and that
    catalogue is the pickled one, the next call without [update] returns it
    again and leaves the state as it was: the history gains no event, so no
    page is fetched, nothing is asked and nothing is saved. *)
Theorem C9_cached_catalogue_is_reused
    (W : World) (fuel1 fuel2 : nat) (confirmation_required1 confirmation_required2 : bool)
    (verbose1 verbose2 : nat) (s s1 : State) (c : DataFrame) :
  get_subregion_downloads_catalogue W fuel1 false confirmation_required1 verbose1 s
    = Return (Some c) s1 →
  pk_catalogue s1 = Some c →
  get_subregion_downloads_catalogue W fuel2 false confirmation_required2 verbose2 s1
    = Return (Some c) s1.
Proof.
  intros _ Hpk. unfold get_subregion_downloads_catalogue.
  erewrite bind_Return; [|reflexivity]. by rewrite Hpk.
Qed.

Lemma C9_witness :
  ∃ c s1,
    get_subregion_downloads_catalogue Sample.world 5 false false 0 Sample.fresh
      = Return (Some c) s1 ∧
    pk_catalogue s1 = Some c ∧
    get_subregion_downloads_catalogue Sample.world 0 false true 2 s1 = Return (Some c) s1.
Proof.
  eexists _, _. split; [vm_compute; reflexivity|]. split; [vm_compute; reflexivity|].
  eapply (C9_cached_catalogue_is_reused Sample.world 5 0 false true 0 2 Sample.fresh);
    vm_compute; reflexivity.
Defined.

(** ** C10: the file format is one of the three valid formats *)

Lemma column_of_valid_format (file_format_ : string) (r : Row) :
  file_format_ ∈ ValidFileFormats → ∃ cell, column file_format_ r = Ok cell.
Proof.
  unfold ValidFileFormats. rewrite !elem_of_cons, elem_of_nil.
  intros [->|[->|[->|[]]]]; eexists; reflexivity.
Qed.

Lemma lookup_download_url_Return
    (W : World) (fuel : nat) (subregion_name file_format_ : string) (update : bool)
    (verbose : nat) (s s' : State) (subregion_name_ : string) (download_url : Cell) :
  lookup_download_url W fuel subregion_name file_format_ update verbose s
    = Return (subregion_name_, download_url) s' →
  ∃ index s1,
    get_subregion_downloads_catalogue W fuel update true verbose s = Return (Some index) s1 ∧
    regulate_input_subregion_name W subregion_name s1 = Return (Some subregion_name_) s' ∧
    subregion_name_ ≠ "" ∧
    loc index subregion_name_ file_format_ = Ok download_url.
Proof.
  unfold lookup_download_url. intros H.
  apply bind_Return_inv in H as ([index|] & s1 & Hcat & H); [|done].
  apply bind_Return_inv in H as (r & s2 & Hreg & H).
  destruct r as [n|]; [|done]. simpl in H.
  case_bool_decide as Hn; [done|].
  apply bind_Return_inv in H as (cell & s3 & Hloc & H).
  injection H as <- <- <-.
  destruct (loc index n file_format_) as [cell'|e] eqn:Hl; [|done].
  injection Hloc as <- <-. by exists index, s1.
Qed.

(** C10.  [get_subregion_download_url] either fails its assertion before it
    touches the catalogue, or continues with a format that is one of
    [".osm.pbf"], [".shp.zip"], [".osm.bz2"]; every row has a cell in that
    column, and the cell it returns is read from that column.  When
    [find_similar_str] answers with a member of a non-empty lookup list, as
    a best-similarity match does, the assertion holds for every input string,
    abbreviated or not. *)
Theorem C10_file_format_in_closed_set
    (W : World) (fuel : nat) (subregion_name osm_file_format : string) (update : bool)
    (verbose : nat) (s : State) :
  (get_subregion_download_url W fuel subregion_name osm_file_format update verbose s
     = Raise AssertionError s
   ∨ ∃ file_format_,
       find_similar_str W osm_file_format ValidFileFormats = Some file_format_ ∧
       file_format_ ∈ ValidFileFormats ∧
       (∀ r, ∃ cell, column file_format_ r = Ok cell) ∧
       get_subregion_download_url W fuel subregion_name osm_file_format update verbose s
         = lookup_download_url W fuel subregion_name file_format_ update verbose s ∧
       (∀ subregion_name_ download_url s',
           get_subregion_download_url W fuel subregion_name osm_file_format update verbose s
             = Return (subregion_name_, download_url) s' →
           ∃ index, loc index subregion_name_ file_format_ = Ok download_url))
  ∧ ((∀ x lookup_list, lookup_list ≠ [] →
        ∃ a, find_similar_str W x lookup_list = Some a ∧ a ∈ lookup_list) →
     ∃ file_format_,
       file_format_ ∈ ValidFileFormats ∧
       get_subregion_download_url W fuel subregion_name osm_file_format update verbose s
         = lookup_download_url W fuel subregion_name file_format_ update verbose s).
Proof.
  assert (Hguard :
    get_subregion_download_url W fuel subregion_name osm_file_format update verbose s
      = Raise AssertionError s
    ∨ ∃ file_format_,
        find_similar_str W osm_file_format ValidFileFormats = Some file_format_ ∧
        file_format_ ∈ ValidFileFormats ∧
        get_subregion_download_url W fuel subregion_name osm_file_format update verbose s
          = lookup_download_url W fuel subregion_name file_format_ update verbose s).
  { unfold get_subregion_download_url.
    destruct (find_similar_str W osm_file_format ValidFileFormats) as [ff|]; [|by left].
    destruct (decide (ff ∈ ValidFileFormats)); [|by left].
    right. by exists ff. }
  split.
  - destruct Hguard as [?|(ff & Hff & Hin & Heq)]; [by left|right].
    exists ff. split_and!; auto using column_of_valid_format.
    intros n_ cell s' Hret. rewrite Heq in Hret.
    apply lookup_download_url_Return in Hret as (index & _ & _ & _ & _ & Hloc).
    by exists index.
  - intros Hcontract.
    destruct (Hcontract osm_file_format ValidFileFormats) as (a & Ha & Hin); [done|].
    destruct Hguard as [Hraise|(ff & Hff & ? & Heq)]; [|by exists ff].
    unfold get_subregion_download_url in *. rewrite Ha in *.
    destruct (decide (a ∈ ValidFileFormats)); [by exists a | done].
Qed.

Lemma most_similar_member (x : string) (lookup_list : list string) :
  lookup_list ≠ [] →
  ∃ a, Sample.most_similar x lookup_list = Some a ∧ a ∈ lookup_list.
Proof.
  induction lookup_list as [|a l IH]; [done|]. intros _. simpl.
  destruct l as [|b l].
  - exists a. split; [done | apply elem_of_cons; by left].
  - destruct IH as (c & -> & Hc); [done|].
    destruct (Sample.similarity x a <? Sample.similarity x c)%nat.
    + exists c. split; [done | apply elem_of_cons; by right].
    + exists a. split; [done | apply elem_of_cons; by left].
Qed.

Lemma C10_witness :
  ∃ file_format_,
    file_format_ ∈ ValidFileFormats ∧
    get_subregion_download_url Sample.world 5 "london" ".pbf" false 0 Sample.installed
      = lookup_download_url Sample.world 5 "london" file_format_ false 0 Sample.installed.
Proof.
  apply (C10_file_format_in_closed_set Sample.world 5 "london" ".pbf" false 0 Sample.installed).
  exact most_similar_member.
Defined.

(** ** C4: a name that is not identified is an error *)

(** C4.  When the catalogue is at hand and [regulate_input_subregion_name]
    gives nothing ([None] or the empty string), the call never returns a
    value; once the format has passed its assertion it raises [ValueError]
    in the very state the name resolution left, without any further lookup. *)
Theorem C4_unidentified_name_raises
    (W : World) (fuel : nat) (subregion_name osm_file_format : string) (update : bool)
    (verbose : nat) (s s1 s2 : State) (index : DataFrame) (subregion_name_ : option string) :
  get_subregion_downloads_catalogue W fuel update true verbose s = Return (Some index) s1 →
  regulate_input_subregion_name W subregion_name s1 = Return subregion_name_ s2 →
  not_identified subregion_name_ = true →
  (∀ v s', get_subregion_download_url W fuel subregion_name osm_file_format update verbose s
             ≠ Return v s') ∧
  (∀ file_format_,
      find_similar_str W osm_file_format ValidFileFormats = Some file_format_ →
      file_format_ ∈ ValidFileFormats →
      get_subregion_download_url W fuel subregion_name osm_file_format update verbose s
        = Raise ValueError s2).
Proof.
  intros Hcat Hreg Hnot.
  assert (Hlookup : ∀ ff,
    lookup_download_url W fuel subregion_name ff update verbose s = Raise ValueError s2).
  { intros ff. unfold lookup_download_url.
    erewrite bind_Return by exact Hcat. cbv beta iota.
    erewrite bind_Return by exact Hreg. by rewrite Hnot. }
  unfold get_subregion_download_url. split.
  - intros v s'.
    destruct (find_similar_str W osm_file_format ValidFileFormats) as [ff|]; [|done].
    destruct (decide (ff ∈ ValidFileFormats)); [by rewrite Hlookup | done].
  - intros ff -> Hin. destruct (decide (ff ∈ ValidFileFormats)); [apply Hlookup | done].
Qed.

Lemma C4_witness :
  get_subregion_download_url Sample.world 5 "atlantis" ".osm.pbf" false 0
                             Sample.installed_without_names
    = Raise ValueError Sample.installed_without_names.
Proof.
  eapply (C4_unidentified_name_raises Sample.world 5 "atlantis" ".osm.pbf" false 0
            Sample.installed_without_names);
    [vm_compute; reflexivity.. | apply elem_of_cons; by left].
Defined.

(** ** Only [fetch_file] calls the downloader *)

Section Quiet.

Context (W : World).

Lemma quiet_ret {A} (a : A) : quiet (mret a).
Proof. by intros s. Qed.

Lemma quiet_raise {A} (e : exn) : quiet (@raise A e).
Proof. by intros s. Qed.

Lemma quiet_diverge {A} : quiet (@diverge A).
Proof. by intros s. Qed.

Lemma quiet_get_state : quiet get_state.
Proof. by intros s. Qed.

Lemma quiet_lift_result {A} (r : result A) : quiet (lift_result r).
Proof. by destruct r; intros s. Qed.

Lemma quiet_emit (e : event) : is_download e = false → quiet (emit e).
Proof.
  intros He s. unfold emit, downloader_calls. simpl.
  by rewrite List.filter_app; simpl; rewrite He, app_nil_r.
Qed.

Lemma quiet_bind {A B} (m : M A) (f : A → M B) :
  quiet m → (∀ a, quiet (f a)) → quiet (m ≫= f).
Proof.
  intros Hm Hf s. unfold mbind, M_bind. specialize (Hm s).
  destruct (m s) as [a s1|e s1|]; [|done..].
  specialize (Hf a s1). destruct (f a s1); [| |done]; naive_solver congruence.
Qed.

Lemma quiet_try_except {A} (body : M A) (handler : exn → M A) :
  quiet body → (∀ e, quiet (handler e)) → quiet (try_except body handler).
Proof.
  intros Hm Hf s. unfold try_except. specialize (Hm s).
  destruct (body s) as [a s1|e s1|]; [done| |done].
  specialize (Hf e s1). destruct (handler e s1); [| |done]; naive_solver congruence.
Qed.

Lemma quiet_for_each {A B} (f : A → M B) (l : list A) :
  (∀ a, quiet (f a)) → quiet (for_each f l).
Proof.
  intros Hf. induction l as [|a l IH]; simpl; [apply quiet_ret|].
  apply quiet_bind; [done|]. intros b. apply quiet_bind; [done|].
  intros bs. apply quiet_ret.
Qed.

Lemma quiet_fold_each {A B} (f : B → A → M B) (l : list A) (b : B) :
  (∀ b a, quiet (f b a)) → quiet (fold_each f l b).
Proof.
  intros Hf. revert b. induction l as [|a l IH]; intros b; simpl; [apply quiet_ret|].
  apply quiet_bind; [done|]. intros b'. apply IH.
Qed.

Lemma quiet_print_if (c : bool) (m : message) : quiet (print_if c m).
Proof. destruct c; [by apply quiet_emit | apply quiet_ret]. Qed.

Lemma quiet_confirmed (p : prompt) (c : bool) : quiet (confirmed W p c).
Proof.
  destruct c; simpl; [|apply quiet_ret].
  apply quiet_bind; [by apply quiet_emit | intros; apply quiet_ret].
Qed.

Lemma quiet_save_pickle (name : string) (store : State → State) :
  (∀ s, files (store s) = files s ∧ history (store s) = history s) →
  quiet (save_pickle W name store).
Proof.
  intros Hstore s. unfold save_pickle, downloader_calls.
  destruct (save_pickle_succeeds W name); simpl;
    rewrite List.filter_app; simpl; rewrite app_nil_r; [|done].
  by destruct (Hstore s) as [-> ->].
Qed.

Create HintDb quiet.

#[local] Hint Resolve quiet_ret quiet_raise quiet_diverge quiet_get_state
  quiet_lift_result quiet_print_if quiet_confirmed quiet_for_each quiet_fold_each : quiet.

(** One step through the syntax of a computation. *)
Ltac quiet_step :=
  match goal with
  | |- quiet (_ ≫= _) => apply quiet_bind; [|intros ?]
  | |- quiet (try_except _ _) => apply quiet_try_except; [|intros ?]
  | |- quiet (emit _) => by apply quiet_emit
  | |- quiet (save_pickle _ _ _) => by apply quiet_save_pickle
  | |- quiet (match ?x with _ => _ end) => destruct x
  | |- _ => by eauto with quiet
  end.

Ltac quiet := repeat quiet_step.

Lemma quiet_get_subregion_table (url : string) : quiet (get_subregion_table W url).
Proof. unfold get_subregion_table. quiet. Qed.

#[local] Hint Resolve quiet_get_subregion_table : quiet.

Lemma quiet_get_index_of_all_downloads (update confirmation_required : bool) (verbose : nat) :
  quiet (get_index_of_all_downloads W update confirmation_required verbose).
Proof. unfold get_index_of_all_downloads. quiet. Qed.

#[local] Hint Resolve quiet_get_index_of_all_downloads : quiet.

Lemma quiet_get_subregion_name_list (update confirmation_required : bool) (verbose : nat) :
  quiet (get_subregion_name_list W update confirmation_required verbose).
Proof. unfold get_subregion_name_list. quiet. Qed.

#[local] Hint Resolve quiet_get_subregion_name_list : quiet.

Lemma quiet_regulate_input_subregion_name (subregion_name : string) :
  quiet (regulate_input_subregion_name W subregion_name).
Proof. unfold regulate_input_subregion_name. quiet. Qed.

#[local] Hint Resolve quiet_regulate_input_subregion_name : quiet.

Lemma quiet_get_continents_subregion_tables
    (update confirmation_required : bool) (verbose : nat) :
  quiet (get_continents_subregion_tables W update confirmation_required verbose).
Proof. unfold get_continents_subregion_tables. quiet. Qed.

#[local] Hint Resolve quiet_get_continents_subregion_tables : quiet.

Lemma quiet_traverse_regions
    (recurse : PyDict → M (PyDict * list string)) (sub_reg_tbls : PyDict) :
  (∀ d, quiet (recurse d)) → quiet (traverse_regions W recurse sub_reg_tbls).
Proof.
  intros Hrec. unfold traverse_regions.
  destruct (classify_regions sub_reg_tbls) as [[? ?] ?].
  apply quiet_fold_each. intros st kv. quiet.
Qed.

Lemma quiet_compile_region_subregion_tier (fuel : nat) (sub_reg_tbls : PyDict) :
  quiet (compile_region_subregion_tier W fuel sub_reg_tbls).
Proof.
  revert sub_reg_tbls. induction fuel as [|fuel IH]; intros d; simpl; [quiet|].
  apply quiet_bind; [by apply quiet_traverse_regions | intros [? ?]; quiet].
Qed.

#[local] Hint Resolve quiet_compile_region_subregion_tier : quiet.

Lemma quiet_get_region_subregion_tier
    (fuel : nat) (update confirmation_required : bool) (verbose : nat) :
  quiet (get_region_subregion_tier W fuel update confirmation_required verbose).
Proof. unfold get_region_subregion_tier. quiet. Qed.

#[local] Hint Resolve quiet_get_region_subregion_tier : quiet.

Lemma quiet_crawl (fuel : nat) (subregion_url_tables avail : list Table) :
  quiet (crawl W fuel subregion_url_tables avail).
Proof.
  revert subregion_url_tables avail.
  induction fuel as [|fuel IH]; intros [|t ts] avail; simpl; [quiet..|].
  apply quiet_bind; [|intros [? ?]; apply IH].
  unfold crawl_generation. apply quiet_fold_each. intros st tbl. quiet.
Qed.

#[local] Hint Resolve quiet_crawl : quiet.

Lemma quiet_get_subregion_downloads_catalogue
    (fuel : nat) (update confirmation_required : bool) (verbose : nat) :
  quiet (get_subregion_downloads_catalogue W fuel update confirmation_required verbose).
Proof. unfold get_subregion_downloads_catalogue. quiet. Qed.

#[local] Hint Resolve quiet_get_subregion_downloads_catalogue : quiet.

Lemma quiet_get_subregion_download_url
    (fuel : nat) (subregion_name osm_file_format : string) (update : bool) (verbose : nat) :
  quiet (get_subregion_download_url W fuel subregion_name osm_file_format update verbose).
Proof. unfold get_subregion_download_url, lookup_download_url. quiet. Qed.

#[local] Hint Resolve quiet_get_subregion_download_url : quiet.

Lemma quiet_get_default_osm_filename
    (fuel : nat) (subregion_name osm_file_format : string) (update : bool) (verbose : nat) :
  quiet (get_default_osm_filename W fuel subregion_name osm_file_format update verbose).
Proof. unfold get_default_osm_filename. quiet. Qed.

Lemma quiet_get_default_path_to_osm_file
    (fuel : nat) (subregion_name osm_file_format : string) (mkdir update : bool)
    (verbose : nat) :
  quiet (get_default_path_to_osm_file W fuel subregion_name osm_file_format mkdir update
                                      verbose).
Proof. unfold get_default_path_to_osm_file. quiet. Qed.

#[local] Hint Resolve quiet_get_default_osm_filename quiet_get_default_path_to_osm_file : quiet.

Lemma quiet_target_of
    (fuel : nat) (subregion_name_ osm_file_format : string) (download_dir : option string) :
  quiet (target_of W fuel subregion_name_ osm_file_format download_dir).
Proof. unfold target_of. quiet. Qed.

End Quiet.

(** ** C3 and C5: the downloader is called when it should, and its failure
    is local *)

Section Orchestrator.

Context (W : World).

Lemma downloader_calls_log (e : event) (s : State) :
  downloader_calls (log e s)
    = downloader_calls s ++ (if is_download e then [e] else []).
Proof.
  unfold downloader_calls. simpl. rewrite List.filter_app. simpl.
  by destruct (is_download e).
Qed.

(** The file is there and no update is wanted: nothing is downloaded. *)
Lemma fetch_file_skips
    (subregion_name_ osm_file_format : string) (download_url : Cell)
    (osm_filename path_to_file : string) (confirmation_required : bool) (verbose : nat)
    (s : State) :
  path_to_file ∈ files s →
  ∃ s', fetch_file W subregion_name_ osm_file_format download_url osm_filename path_to_file
                   false confirmation_required verbose s = Return () s' ∧
        files s' = files s ∧
        downloader_calls s' = downloader_calls s ∧
        (verbose ≠ 0 →
         last (history s')
           = Some (EvPrint (MsgAlreadyAvailable osm_filename subregion_name_
                                                (os_path_relpath W path_to_file)))).
Proof.
  intros Hin. unfold fetch_file. erewrite bind_Return; [|reflexivity].
  rewrite bool_decide_eq_true_2 by done. simpl.
  destruct verbose as [|v]; simpl.
  - by exists s.
  - eexists. split; [reflexivity|]. split_and!; [done| |].
    + by rewrite downloader_calls_log, app_nil_r.
    + intros _. simpl. by rewrite last_snoc.
Qed.

(** Otherwise, once confirmed, the downloader is called exactly once, and an
    exception it raises ends in a line on the console. *)
Lemma fetch_file_downloads
    (subregion_name_ osm_file_format : string) (download_url : Cell)
    (osm_filename path_to_file : string) (update confirmation_required : bool)
    (verbose : nat) (s : State) :
  path_to_file ∉ files s ∨ update = true →
  confirmation_required = false
    ∨ user_confirms W (AskDownload osm_file_format subregion_name_) = true →
  ∃ s', fetch_file W subregion_name_ osm_file_format download_url osm_filename path_to_file
                   update confirmation_required verbose s = Return () s' ∧
        downloader_calls s'
          = downloader_calls s
              ++ [EvDownloadFile download_url path_to_file
                                 (download_failure W download_url path_to_file)] ∧
        (∀ e, download_failure W download_url path_to_file = Some e →
              files s' = files s ∧ last (history s') = Some (EvPrint (MsgFailed e))).
Proof.
  intros Hnew Hok. unfold fetch_file. erewrite bind_Return; [|reflexivity].
  assert (bool_decide (path_to_file ∈ files s) && negb update = false) as ->.
  { destruct Hnew as [?| ->]; [by rewrite bool_decide_eq_false_2 | apply andb_false_r]. }
  assert (∃ s1, confirmed W (AskDownload osm_file_format subregion_name_)
                          confirmation_required s = Return true s1 ∧
                files s1 = files s ∧ downloader_calls s1 = downloader_calls s)
    as (s1 & Hconf & Hf1 & Hd1).
  { unfold confirmed. destruct confirmation_required.
    - destruct Hok as [?| ->]; [done|]. eexists. split; [reflexivity|].
      split; [done|]. by rewrite downloader_calls_log, app_nil_r.
    - by exists s. }
  erewrite bind_Return by exact Hconf. cbv beta iota.
  assert (∃ s2, print_if (truthy verbose)
                         (MsgOperation (bool_decide (path_to_file ∈ files s)) osm_filename) s1
                  = Return () s2 ∧
                files s2 = files s ∧ downloader_calls s2 = downloader_calls s)
    as (s2 & Hprint & Hf2 & Hd2).
  { destruct (truthy verbose); simpl; [|by exists s1].
    eexists. split; [reflexivity|]. split; [done|].
    by rewrite downloader_calls_log, app_nil_r. }
  erewrite bind_Return by exact Hprint.
  unfold try_except, download_file, mbind, M_bind. fold (download_failure W download_url path_to_file).
  destruct (download_failure W download_url path_to_file) as [e|].
  - eexists. split; [reflexivity|]. split.
    + rewrite !downloader_calls_log. simpl. by rewrite app_nil_r, Hd2.
    + intros ? [= <-]. split; [done|]. simpl. by rewrite last_snoc.
  - destruct (truthy verbose); simpl; (eexists; split; [reflexivity|]); (split; [|done]).
    + rewrite !downloader_calls_log. simpl.
      unfold downloader_calls at 1. simpl. fold (downloader_calls s2).
      by rewrite app_nil_r, Hd2.
    + rewrite !downloader_calls_log. simpl.
      unfold downloader_calls at 1. simpl. fold (downloader_calls s2).
      by rewrite Hd2.
Qed.

(** The pause after an item. *)
Lemma sleep_spec (interval_sec : nat) (s : State) :
  ∃ s', (if (interval_sec =? 0)%nat then mret () else emit (EvSleep interval_sec)) s
          = Return () s' ∧
        files s' = files s ∧
        downloader_calls s' = downloader_calls s ∧
        (∀ e, e ∈ history s → e ∈ history s').
Proof.
  destruct (interval_sec =? 0)%nat.
  - by exists s.
  - eexists. split; [reflexivity|]. split; [done|].
    split; [by rewrite downloader_calls_log, app_nil_r|].
    intros e He. simpl. apply elem_of_app. by left.
Qed.

(** An item whose URL is in the catalogue goes to [fetch_file]. *)
Lemma download_item_hit
    (recurse : list string → string → M unit) (fuel : nat)
    (sub_reg_name osm_file_format : string) (download_dir : option string)
    (update confirmation_required deep_retry : bool) (verbose : nat)
    (s s1 s2 : State) (subregion_name_ url osm_filename path_to_file : string) :
  get_subregion_download_url W fuel sub_reg_name osm_file_format false 0 s
    = Return (subregion_name_, Scalar (Some url)) s1 →
  target_of W fuel subregion_name_ osm_file_format download_dir s1
    = Return (Some (osm_filename, path_to_file)) s2 →
  download_item W recurse fuel sub_reg_name osm_file_format download_dir
                update confirmation_required deep_retry verbose s
    = (_ ← fetch_file W subregion_name_ osm_file_format (Scalar (Some url)) osm_filename
                      path_to_file update confirmation_required verbose;
       mret download_dir) s2
  ∧ files s2 = files s ∧ downloader_calls s2 = downloader_calls s.
Proof.
  intros Hurl Htarget. split.
  - unfold download_item. erewrite bind_Return by exact Hurl. cbv beta iota.
    by erewrite bind_Return by exact Htarget.
  - pose proof (quiet_get_subregion_download_url W fuel sub_reg_name osm_file_format
                  false 0 s) as H1.
    pose proof (quiet_target_of W fuel subregion_name_ osm_file_format download_dir s1)
      as H2.
    rewrite Hurl in H1. rewrite Htarget in H2. naive_solver congruence.
Qed.

(** C3.  Take a name whose URL for the format is in the catalogue and whose
    target file exists.  A call with [update=False] returns without any call
    of the downloader, and with [verbose] says that the file is already
    available; a call with [update=True], once confirmed (or with no
    confirmation required), calls the downloader exactly once, for that URL
    and that path. *)
Theorem C3_existing_file_skipped_or_updated
    (depth fuel : nat) (sub_reg_name osm_file_format : string)
    (download_dir : option string) (confirmation_required deep_retry : bool)
    (interval_sec verbose : nat) (s s1 s2 : State)
    (subregion_name_ url osm_filename path_to_file : string) :
  get_subregion_download_url W fuel sub_reg_name osm_file_format false 0 s
    = Return (subregion_name_, Scalar (Some url)) s1 →
  target_of W fuel subregion_name_ osm_file_format download_dir s1
    = Return (Some (osm_filename, path_to_file)) s2 →
  path_to_file ∈ files s →
  (∃ s3,
      download_subregion_osm_file W (S depth) fuel [sub_reg_name] osm_file_format
        download_dir false confirmation_required deep_retry interval_sec verbose s
        = Return () s3 ∧
      downloader_calls s3 = downloader_calls s ∧
      (verbose ≠ 0 →
       EvPrint (MsgAlreadyAvailable osm_filename subregion_name_
                                    (os_path_relpath W path_to_file)) ∈ history s3))
  ∧ (confirmation_required = false
       ∨ user_confirms W (AskDownload osm_file_format subregion_name_) = true →
     ∃ s3,
      download_subregion_osm_file W (S depth) fuel [sub_reg_name] osm_file_format
        download_dir true confirmation_required deep_retry interval_sec verbose s
        = Return () s3 ∧
      downloader_calls s3
        = downloader_calls s
            ++ [EvDownloadFile (Scalar (Some url)) path_to_file
                               (download_file_from_url W url path_to_file)]).
Proof.
  intros Hurl Htarget Hin. split; [|intros Hok]; simpl.
  - edestruct download_item_hit as (Hitem & Hf2 & Hd2); [exact Hurl | exact Htarget |].
    edestruct (fetch_file_skips subregion_name_ osm_file_format (Scalar (Some url))
                 osm_filename path_to_file confirmation_required verbose s2)
      as (s' & Hfetch & Hf & Hd & Hmsg); [by rewrite Hf2|].
    destruct (sleep_spec interval_sec s') as (s3 & Hsleep & _ & Hd3 & Hh3).
    erewrite bind_Return; cycle 1.
    { rewrite Hitem. erewrite bind_Return by exact Hfetch. reflexivity. }
    erewrite bind_Return by exact Hsleep. exists s3. split; [done|].
    split; [congruence|].
    intros Hv. apply Hh3. apply last_Some_elem_of. eauto.
  - edestruct download_item_hit as (Hitem & Hf2 & Hd2); [exact Hurl | exact Htarget |].
    edestruct (fetch_file_downloads subregion_name_ osm_file_format (Scalar (Some url))
                 osm_filename path_to_file true confirmation_required verbose s2)
      as (s' & Hfetch & Hd & _); [by right | done |].
    erewrite bind_Return; cycle 1.
    { rewrite Hitem. erewrite bind_Return by exact Hfetch. reflexivity. }
    destruct (sleep_spec interval_sec s') as (s3 & Hsleep & _ & Hd3 & _).
    erewrite bind_Return by exact Hsleep. exists s3. split; [done|].
    by rewrite Hd3, Hd, Hd2.
Qed.

(** C5.  When the downloader raises on one item of a batch, the exception is
    printed for that item and the loop goes on: the call behaves from there
    on as the call on the remaining names, in a state where the failed
    attempt is the one new call of the downloader and no file has been
    added. *)
Theorem C5_failed_download_does_not_stop_batch
    (depth fuel : nat) (sub_reg_name : string) (rest : list string)
    (osm_file_format : string) (download_dir : option string)
    (update confirmation_required deep_retry : bool) (interval_sec verbose : nat)
    (s s1 s2 : State) (subregion_name_ url osm_filename path_to_file : string) (e : exn) :
  get_subregion_download_url W fuel sub_reg_name osm_file_format false 0 s
    = Return (subregion_name_, Scalar (Some url)) s1 →
  target_of W fuel subregion_name_ osm_file_format download_dir s1
    = Return (Some (osm_filename, path_to_file)) s2 →
  path_to_file ∉ files s ∨ update = true →
  confirmation_required = false
    ∨ user_confirms W (AskDownload osm_file_format subregion_name_) = true →
  download_file_from_url W url path_to_file = Some e →
  ∃ s3,
    download_subregion_osm_file W (S depth) fuel (sub_reg_name :: rest) osm_file_format
      download_dir update confirmation_required deep_retry interval_sec verbose s
      = download_subregion_osm_file W (S depth) fuel rest osm_file_format
          download_dir update confirmation_required deep_retry interval_sec verbose s3 ∧
    downloader_calls s3
      = downloader_calls s ++ [EvDownloadFile (Scalar (Some url)) path_to_file (Some e)] ∧
    EvPrint (MsgFailed e) ∈ history s3 ∧
    files s3 = files s.
Proof.
  intros Hurl Htarget Hnew Hok Hfail. simpl.
  edestruct download_item_hit as (Hitem & Hf2 & Hd2); [exact Hurl | exact Htarget |].
  edestruct (fetch_file_downloads subregion_name_ osm_file_format (Scalar (Some url))
               osm_filename path_to_file update confirmation_required verbose s2)
    as (s' & Hfetch & Hd & Hfailed); [by rewrite Hf2 | done |].
  destruct (Hfailed e) as [Hf' Hlast]; [done|].
  destruct (sleep_spec interval_sec s') as (s3 & Hsleep & Hf3 & Hd3 & Hh3).
  exists s3. split_and!.
  - erewrite bind_Return; cycle 1.
    { rewrite Hitem. erewrite bind_Return by exact Hfetch. reflexivity. }
    by erewrite bind_Return by exact Hsleep.
  - rewrite Hd3, Hd, Hd2. simpl. by rewrite Hfail.
  - apply Hh3. by apply last_Some_elem_of.
  - congruence.
Qed.

End Orchestrator.

Lemma C3_witness :
  ∃ s3,
    download_subregion_osm_file Sample.world 1 5 ["malta"] ".osm.pbf" None
                                false true false 5 1 Sample.installed_with_malta
      = Return () s3 ∧
    downloader_calls s3 = downloader_calls Sample.installed_with_malta.
Proof.
  edestruct (C3_existing_file_skipped_or_updated Sample.world 0 5 "malta" ".osm.pbf" None
               true false 5 1 Sample.installed_with_malta)
    as [(s3 & Hrun & Hcalls & _) _];
    [vm_compute; reflexivity.. |].
  exists s3. split; [exact Hrun | exact Hcalls].
Defined.

Lemma C5_witness :
  ∃ s3,
    download_subregion_osm_file Sample.offline 1 5 ["malta"; "wales"] ".osm.pbf" None
                                false false false 5 1 Sample.installed
      = download_subregion_osm_file Sample.offline 1 5 ["wales"] ".osm.pbf" None
                                    false false false 5 1 s3 ∧
    EvPrint (MsgFailed ConnectionError) ∈ history s3.
Proof.
  edestruct (C5_failed_download_does_not_stop_batch Sample.offline 0 5 "malta" ["wales"]
               ".osm.pbf" None false false false 5 1 Sample.installed)
    as (s3 & Hrun & _ & Hmsg & _);
    [vm_compute; reflexivity | vm_compute; reflexivity | left; apply not_elem_of_empty
    | by left | vm_compute; reflexivity |].
  exists s3. split; [exact Hrun | exact Hmsg].
Defined.

Lemma C8_witness :
  NoDup ["Malta"; "Russian Federation"; "England"; "Wales"].
Proof.
  edestruct (C8_leaf_names_unique_first_seen Sample.world 5 Sample.continents Sample.fresh)
    as (fuel' & collected & _ & _ & Hnodup & _); [vm_compute; reflexivity|].
  exact Hnodup.
Defined.

(** ** C7: the segment [us] *)

(** C7, as the code has it.  The directory of the default path is
    [cd_dat_geofabrik] of the segments of the URL path before the file name,
    and a segment becomes [United States] exactly when it is the lower-case
    string [us]; every other segment, [US] and [Us] included, is replaced by
    what [find_similar_str] answers for it. *)
Theorem C7_lower_case_us_is_United_States
    (W : World) (fuel : nat) (subregion_name osm_file_format : string)
    (mkdir update : bool) (verbose : nat) (s s1 s2 : State)
    (subregion_name_ download_url : string) (subregion_names : list string) :
  get_subregion_download_url W fuel subregion_name osm_file_format update 0 s
    = Return (subregion_name_, Scalar (Some download_url)) s1 →
  get_subregion_name_list W false true 0 s1 = Return subregion_names s2 →
  get_default_path_to_osm_file W fuel subregion_name osm_file_format mkdir update verbose s
    = (directory ← lift_result
                     (cd_dat_geofabrik W
                        (directory_segments W subregion_names
                           (parsed_path_of W subregion_name_ download_url)) mkdir);
       let default_filename :=
         default "" (last (parsed_path_of W subregion_name_ download_url)) in
       mret (Some (default_filename, os_path_join W directory default_filename))) s2 ∧
  ∀ i x,
    parsed_path_of W subregion_name_ download_url !! i = Some x →
    i < length (parsed_path_of W subregion_name_ download_url) - 1 →
    directory_segments W subregion_names (parsed_path_of W subregion_name_ download_url) !! i
      = Some (if decide (x = "us") then Some "United States"
              else find_similar_str W x subregion_names).
Proof.
  intros Hurl Hnames. split.
  - unfold get_default_path_to_osm_file.
    erewrite bind_Return by exact Hurl. cbv beta iota zeta.
    by erewrite bind_Return by exact Hnames.
  - intros i x Hx Hi. unfold directory_segments.
    rewrite list_lookup_fmap, lookup_take_lt by done. rewrite Hx. simpl.
    by destruct (decide (x = "us")), (decide (x ≠ "us")).
Qed.

Lemma C7_witness :
  get_default_path_to_osm_file Sample.world 5 "alaska" ".osm.pbf" false false 0
                               Sample.lower_case_installation
    = Return (Some ("alaska-latest.osm.pbf",
                    "dat_GeoFabrik/North America/United States/alaska-latest.osm.pbf"))
             Sample.lower_case_installation.
Proof.
  edestruct (C7_lower_case_us_is_United_States Sample.world 5 "alaska" ".osm.pbf"
               false false 0 Sample.lower_case_installation) as [Hpath _];
    [vm_compute; reflexivity | vm_compute; reflexivity |].
  rewrite Hpath. vm_compute. reflexivity.
Defined.

(** The claim in any letter case fails: with the segment written [US] the
    directory is what the similarity match makes of it, here a name of the
    list, which does not hold [United States]. *)
Lemma C7_capital_US_is_not_mapped :
  directory_segments Sample.world Sample.capital_names
                     ["north-america"; "US"; "alaska-latest.osm.pbf"] !! 1
    ≠ Some (Some "United States")
  ∧ get_default_path_to_osm_file Sample.world 5 "alaska" ".osm.pbf" false false 0
                                 Sample.capital_installation
      = Return (Some ("alaska-latest.osm.pbf",
                      "dat_GeoFabrik/North America/North America/alaska-latest.osm.pbf"))
               Sample.capital_installation.
Proof. split; [by vm_compute | vm_compute; reflexivity]. Qed.

(** ** C1: the compaction of name duplicates *)

(** With two or more duplicated rows, [range(0, 2, len(duplicated))] is the
    single index 0: only the first two duplicated rows are ever compared. *)
Lemma range_over_duplicates_is_first_slice (n : nat) :
  py_range 0 2 (S (S n)) = Ok [0].
Proof. reflexivity. Qed.

(** C1 at a catalogue with two names listed twice each.  The one slice that
    is examined holds the first Georgia and the first Russian Federation; the
    smaller of the two is dropped, and the Russian Federation is left with
    two rows. *)
Theorem C1_compaction_leaves_a_name_twice :
  compact_catalogue Sample.world Sample.cross_listed
    = Ok [(0, Sample.russia_in_europe); (1, Sample.russia_in_asia);
          (2, Sample.georgia_state)]
  ∧ name_count "Russian Federation"
      [(0, Sample.russia_in_europe); (1, Sample.russia_in_asia); (2, Sample.georgia_state)]
    = 2.
Proof. split; vm_compute; reflexivity. Qed.

(** ** C6: a page that cannot be fetched *)

Lemma get_subregion_table_degrades (W : World) (url : string) (e : exn) (s : State) :
  scrape_subregion_table W url = Err e →
  caught_by_get_subregion_table e = true →
  get_subregion_table W url s = Return None (log (EvFetch url) s).
Proof.
  intros He Hc. unfold get_subregion_table.
  erewrite bind_Return; [|reflexivity]. by rewrite He, Hc.
Qed.

Lemma get_subregion_table_propagates (W : World) (url : string) (e : exn) (s : State) :
  scrape_subregion_table W url = Err e →
  caught_by_get_subregion_table e = false →
  get_subregion_table W url s = Raise e (log (EvFetch url) s).
Proof.
  intros He Hc. unfold get_subregion_table.
  erewrite bind_Return; [|reflexivity]. by rewrite He, Hc.
Qed.

Lemma classify_region_fold (l : PyDict) (st : PyDict * PyDict * list string) :
  (foldl classify_region st l).2 = st.2 ++ omap leaf_key l.
Proof.
  revert st. induction l as [|[k v] l IH]; intros st; simpl.
  - by rewrite app_nil_r.
  - rewrite IH. unfold classify_region, leaf_key. simpl.
    destruct v; simpl; try by rewrite <-app_assoc.
    done.
Qed.

Lemma classify_regions_leaves (sub_reg_tbls : PyDict) :
  (classify_regions sub_reg_tbls).2 = omap leaf_key sub_reg_tbls.
Proof. unfold classify_regions. by rewrite classify_region_fold. Qed.

Lemma traverse_regions_keeps_leaves
    (W : World) (recurse : PyDict → M (PyDict * list string)) (sub_reg_tbls : PyDict)
    (s s' : State) (tiers : PyDict) (collected : list string) (k : string) :
  traverse_regions W recurse sub_reg_tbls s = Return (tiers, collected) s' →
  k ∈ (classify_regions sub_reg_tbls).2 → k ∈ collected.
Proof.
  unfold traverse_regions.
  destruct (classify_regions sub_reg_tbls) as [[d t0] non0]. simpl.
  generalize (foldl (λ d x, dict_pop x d) sub_reg_tbls non0) as having.
  intros having. revert t0 non0 s.
  induction having as [|[r v] having IH]; intros t0 non0 s; simpl.
  - by intros [= <- <- <-].
  - intros H Hk. apply bind_Return_inv in H as ([t1 non1] & s1 & Hstep & H).
    eapply IH; [exact H|].
    destruct v; simpl in Hstep; try done.
    apply bind_Return_inv in Hstep as (tables & s2 & _ & Hstep).
    apply bind_Return_inv in Hstep as ([idx without] & s3 & _ & Hstep).
    injection Hstep as <- <- <-. simpl. apply elem_of_app. by left.
Qed.

(** X1.  A region whose table is the [None] that [get_subregion_table]
    returns for a caught exception ends on the list of names without
    subregions that [compile_region_subregion_tier] returns, whatever the
    traversal meets elsewhere. *)
Lemma compile_region_subregion_tier_leaf
    (W : World) (fuel : nat) (sub_reg_tbls : PyDict) (s s' : State)
    (tiers : PyDict) (non_subregions_list : list string) (k : string) :
  compile_region_subregion_tier W fuel sub_reg_tbls s
    = Return (tiers, non_subregions_list) s' →
  (k, VNone) ∈ sub_reg_tbls → k ∈ non_subregions_list.
Proof.
  intros H Hk.
  apply compile_region_subregion_tier_Return in H as (fuel' & collected & _ & Htr & ->).
  apply unique_everseen_from_elem. split; [|apply not_elem_of_nil].
  eapply traverse_regions_keeps_leaves; [exact Htr|].
  rewrite classify_regions_leaves. apply list_elem_of_omap.
  by exists (k, VNone).
Qed.

(** C6 at a page that answers with an HTTP error.  [urllib.error.HTTPError]
    is not among the classes [get_subregion_table] catches: the exception
    leaves the traversal, [get_region_subregion_tier] prints it and returns
    no tier at all, and nothing is pickled.  With an exception of a caught
    class at the same page the build completes and Malta is a name without
    subregions. *)
Theorem C6_http_error_aborts_the_build :
  (∃ s', get_region_subregion_tier Sample.malta_gone 5 false false 0 Sample.fresh
           = Return None s' ∧
         pk_tier s' = None ∧
         last (history s') = Some (EvPrint (MsgFailed HTTPError)))
  ∧ (∃ tier leaves s',
        get_region_subregion_tier Sample.malta_refused 5 false false 0 Sample.fresh
          = Return (Some (tier, leaves)) s' ∧
        "Malta" ∈ leaves).
Proof.
  split.
  - eexists. split; [vm_compute; reflexivity|]. split; reflexivity.
  - eexists _, _, _. split; [vm_compute; reflexivity|].
    apply elem_of_cons. by left.
Qed.

(** ** C2: the fallback on a region without subregions *)

(** For a region without subregions, [find_subregions] yields the region
    itself. *)
Lemma russia_expands_to_itself (fuel : nat) (deep : bool) :
  retrieve_names_of_subregions_of Sample.world fuel ["Russian Federation"] deep
                                  Sample.installed
    = Return (Some ["Russian Federation"]) Sample.installed.
Proof. destruct deep; vm_compute; reflexivity. Qed.

(** One round of the loop for the Russian Federation, which has no shapefile
    and no subregions: it ends in the recursive call for the same name. *)
Lemma russia_round_recurses
    (recurse : list string → string → M unit) (fuel : nat)
    (download_dir : option string) (deep_retry : bool) :
  download_dir = None ∨ download_dir = Some Sample.russia_shp_dir →
  recurse ["Russian Federation"] Sample.russia_shp_dir Sample.installed = Diverge →
  download_item Sample.world recurse fuel "Russian Federation" ".shp.zip" download_dir
                false false deep_retry 0 Sample.installed
    = Diverge.
Proof.
  intros Hdir Hrec. vm_compute in Hrec.
  destruct Hdir as [-> | ->], deep_retry; vm_compute; by rewrite Hrec.
Qed.

Lemma russia_never_ends
    (depth fuel : nat) (download_dir : option string) (deep_retry : bool)
    (interval_sec : nat) :
  download_dir = None ∨ download_dir = Some Sample.russia_shp_dir →
  download_subregion_osm_file Sample.world depth fuel ["Russian Federation"] ".shp.zip"
                              download_dir false false deep_retry interval_sec 0
                              Sample.installed
    = Diverge.
Proof.
  revert download_dir deep_retry interval_sec.
  induction depth as [|depth IH]; intros download_dir deep_retry interval_sec Hdir;
    [done|].
  simpl. apply bind_Diverge. apply russia_round_recurses; [done|].
  apply IH. by right.
Qed.

(** C2 at the Russian Federation, a region without subregions for which the
    catalogue has an [.osm.pbf] but no [.shp.zip].  The names the fallback
    expands to are the region itself, and the call for the shapefile reaches
    no base case: whatever the depth allowed, the recursion is still going
    on. *)
Theorem C2_leaf_without_format_recurses_forever (depth fuel : nat) :
  retrieve_names_of_subregions_of Sample.world fuel ["Russian Federation"] false
                                  Sample.installed
    = Return (Some ["Russian Federation"]) Sample.installed
  ∧ get_subregion_download_url Sample.world fuel "Russian Federation" ".shp.zip" false 0
                               Sample.installed
    = Return ("Russian Federation", Scalar None) Sample.installed
  ∧ download_subregion_osm_file Sample.world depth fuel ["Russian Federation"] ".shp.zip"
                                None false false false 5 0 Sample.installed
    = Diverge.
Proof.
  split; [apply russia_expands_to_itself|].
  split; [vm_compute; reflexivity|].
  apply russia_never_ends. by left.
Qed.

(** * Further properties of the code *)

(** ** The region-subregion tier *)

Lemma X1_witness :
  "Wales" ∈ ["England"; "Wales"].
Proof.
  eapply (compile_region_subregion_tier_leaf Sample.world 1 Sample.great_britain_subregions
            Sample.fresh);
    [vm_compute; reflexivity | apply elem_of_cons; right; apply elem_of_cons; by left].
Defined.

Lemma fold_each_invariant {A B} (P : B → Prop) (f : B → A → M B) (l : list A)
    (b b' : B) (s s' : State) :
  (∀ b a s b' s', a ∈ l → P b → f b a s = Return b' s' → P b') →
  P b → fold_each f l b s = Return b' s' → P b'.
Proof.
  revert b s. induction l as [|a l IH]; intros b s Hf Hb; simpl.
  - by intros [= <- <-].
  - intros H. apply bind_Return_inv in H as (b1 & s1 & Hstep & H).
    eapply IH; [| |exact H].
    + intros ? ? ? ? ? Hin. apply Hf. apply elem_of_cons. by right.
    + eapply Hf; [|exact Hb|exact Hstep]. apply elem_of_cons. by left.
Qed.

Lemma dict_set_keys {V} (k : string) (v : V) (d : list (string * V)) :
  k ∈ d.*1 → (dict_set k v d).*1 = d.*1.
Proof.
  induction d as [|[k' v'] d IH]; simpl; [by intros ?%elem_of_nil|].
  intros Hk. destruct (decide (k' = k)) as [->|Hne]; [done|]. simpl. f_equal.
  apply IH. apply elem_of_cons in Hk as [?|?]; [congruence | done].
Qed.

Lemma filter_all {A} (P : A → Prop) `{!∀ x, Decision (P x)} (l : list A) :
  (∀ x, x ∈ l → P x) → filter P l = l.
Proof.
  induction l as [|a l IH]; intros Hall; [done|].
  rewrite filter_cons_True by (apply Hall, elem_of_cons; by left).
  f_equal. apply IH. intros ? ?. apply Hall, elem_of_cons. by right.
Qed.

Lemma filter_none {A} (P : A → Prop) `{!∀ x, Decision (P x)} (l : list A) :
  (∀ x, x ∈ l → ¬ P x) → filter P l = [].
Proof.
  induction l as [|a l IH]; intros Hall; [done|].
  rewrite filter_cons_False by (apply Hall, elem_of_cons; by left).
  apply IH. intros ? ?. apply Hall, elem_of_cons. by right.
Qed.

Lemma dict_pop_all {V} (ks : list string) (d : list (string * V)) :
  foldl (λ d x, dict_pop x d) d ks = filter (λ kv, kv.1 ∉ ks) d.
Proof.
  revert d. induction ks as [|k ks IH]; intros d; simpl.
  - symmetry. apply filter_all. intros ? _. apply not_elem_of_nil.
  - rewrite IH. unfold dict_pop. rewrite list_filter_filter.
    apply list_filter_iff. intros kv. rewrite not_elem_of_cons. naive_solver.
Qed.

Lemma classify_regions_keys (l : PyDict) (st : PyDict * PyDict * list string)
    (K : list string) :
  st.1.1.*1 = K → st.1.2.*1 = K → (∀ kv, kv ∈ l → kv.1 ∈ K) →
  (foldl classify_region st l).1.2.*1 = K ∧ (foldl classify_region st l).1.1.*1 = K.
Proof.
  revert st. induction l as [|kv l IH]; intros st H1 H2 Hin; simpl; [done|].
  apply IH.
  - unfold classify_region. destruct kv.2; simpl; try done.
    rewrite dict_set_keys; [done|]. rewrite H1. apply Hin, elem_of_cons. by left.
  - unfold classify_region. destruct kv.2; simpl; try done.
    rewrite dict_set_keys; [done|]. rewrite H1. apply Hin, elem_of_cons. by left.
  - intros ? ?. apply Hin, elem_of_cons. by right.
Qed.

(** X2.  The tier [compile_region_subregion_tier] returns has the keys of the
    dict of tables it was given, in the same order: regions are neither lost
    nor added, whatever the pages below them hold. *)
Theorem compile_region_subregion_tier_keys
    (W : World) (fuel : nat) (sub_reg_tbls : PyDict) (s s' : State)
    (region_subregion_tiers : PyDict) (non_subregions_list : list string) :
  compile_region_subregion_tier W fuel sub_reg_tbls s
    = Return (region_subregion_tiers, non_subregions_list) s' →
  region_subregion_tiers.*1 = sub_reg_tbls.*1.
Proof.
  intros H.
  apply compile_region_subregion_tier_Return in H as (fuel' & collected & _ & Htr & _).
  unfold traverse_regions in Htr.
  destruct (classify_regions sub_reg_tbls) as [[d t0] non0] eqn:Hc.
  assert (t0.*1 = sub_reg_tbls.*1) as Ht0.
  { pose proof (classify_regions_keys sub_reg_tbls (sub_reg_tbls, sub_reg_tbls, [])
                  (sub_reg_tbls.*1) eq_refl eq_refl) as [Hk _].
    - intros kv ?. by apply list_elem_of_fmap_2.
    - unfold classify_regions in Hc. by rewrite Hc in Hk. }
  eapply (fold_each_invariant (λ st, st.1.*1 = sub_reg_tbls.*1)) in Htr; [done| |done].
  intros [t non] [k v] s1 [t' non'] s1' Hin Hkeys Hstep. simpl in *.
  rewrite dict_pop_all in Hin. apply list_elem_of_filter in Hin as [_ Hin].
  destruct v; try done.
  apply bind_Return_inv in Hstep as (tables & s2 & _ & Hstep).
  apply bind_Return_inv in Hstep as ([idx without] & s3 & _ & Hstep).
  injection Hstep as <- <- <-. rewrite dict_set_keys; [done|].
  rewrite Hkeys. by apply (list_elem_of_fmap_2 fst _ (k, VTable t1)).
Qed.

Lemma X2_witness :
  ["Europe"; "Asia"] = Sample.continents.*1.
Proof.
  eapply (compile_region_subregion_tier_keys Sample.world 5 Sample.continents Sample.fresh
            _ [("Europe", _); ("Asia", _)]).
  vm_compute. reflexivity.
Defined.

Lemma classify_regions_all_leaves (l : PyDict) (st : PyDict * PyDict * list string) :
  (∀ kv, kv ∈ l → is_Some (leaf_key kv)) →
  foldl classify_region st l = (st.1.1, st.1.2, st.2 ++ l.*1).
Proof.
  revert st. induction l as [|kv l IH]; intros [[a b] acc] Hl; simpl.
  - by rewrite app_nil_r.
  - rewrite IH by (intros ? ?; apply Hl, elem_of_cons; by right).
    destruct (Hl kv) as [k Hk]; [apply elem_of_cons; by left|].
    unfold leaf_key in Hk. unfold classify_region.
    destruct kv.2; simpl; try done; by rewrite <-app_assoc.
Qed.

(** X3.  The base case of the traversal: a dict in which no value is a table
    is returned as it is, its keys are the names without subregions (each
    once), and no page is fetched, the state being left untouched. *)
Theorem compile_region_subregion_tier_without_tables
    (W : World) (fuel : nat) (sub_reg_tbls : PyDict) (s : State) :
  (∀ kv, kv ∈ sub_reg_tbls → is_Some (leaf_key kv)) →
  compile_region_subregion_tier W (S fuel) sub_reg_tbls s
    = Return (sub_reg_tbls, unique_everseen sub_reg_tbls.*1) s.
Proof.
  intros Hl. simpl. unfold traverse_regions, classify_regions.
  rewrite classify_regions_all_leaves by done. simpl.
  rewrite dict_pop_all.
  rewrite filter_none; [done|].
  intros kv Hin Hnot. apply Hnot. by apply list_elem_of_fmap_2.
Qed.

Lemma X3_witness :
  compile_region_subregion_tier Sample.world 1 Sample.great_britain_subregions Sample.fresh
    = Return (Sample.great_britain_subregions, ["England"; "Wales"]) Sample.fresh.
Proof.
  apply (compile_region_subregion_tier_without_tables Sample.world 0
           Sample.great_britain_subregions Sample.fresh).
  intros kv Hin.
  apply elem_of_cons in Hin as [->|Hin]; [by eexists|].
  apply elem_of_cons in Hin as [->|Hin]; [by eexists|].
  by apply elem_of_nil in Hin.
Defined.

(** ** The builders and their pickles *)

Section Builders.

Context (W : World).

Lemma bind_Raise_inv {A B} (m : M A) (f : A → M B) (s : State) (e : exn) (s2 : State) :
  (m ≫= f) s = Raise e s2 →
  m s = Raise e s2 ∨ ∃ a s1, m s = Return a s1 ∧ f a s1 = Raise e s2.
Proof.
  unfold mbind, M_bind. destruct (m s) as [a s1|e1 s1|]; [|intros [= -> ->]; by left|done].
  intros H. right. by exists a, s1.
Qed.

Lemma same_artefacts_refl (s : State) : same_artefacts s s.
Proof. by repeat split. Qed.

Lemma same_artefacts_trans (s t u : State) :
  same_artefacts s t → same_artefacts t u → same_artefacts s u.
Proof.
  unfold same_artefacts. intros (?&?&?&?&?&?) (?&?&?&?&?&?). split_and!; congruence.
Qed.

Lemma same_artefacts_log (e : event) (s : State) : same_artefacts s (log e s).
Proof. by repeat split. Qed.

(** *** No exception escapes the builders *)

Lemma never_raises_ret {A} (a : A) : never_raises (mret a).
Proof. by intros s e s'. Qed.




Lemma never_raises_save_pickle (name : string) (store : State → State) :
  never_raises (save_pickle W name store).
Proof. intros s e s'. unfold save_pickle. by destruct (save_pickle_succeeds W name). Qed.

Lemma never_raises_bind {A B} (m : M A) (f : A → M B) :
  never_raises m → (∀ a, never_raises (f a)) → never_raises (m ≫= f).
Proof.
  intros Hm Hf s e s' H. apply bind_Raise_inv in H as [H|(a & s1 & _ & H)].
  - by apply Hm in H.
  - by apply Hf in H.
Qed.





(** *** A declined question *)

(** X5.  When the catalogue (or the tier) has to be built and the user
    answers no, the call returns [None]; the history gains the question, and
    with [verbose] the line that no data is available, and nothing else: no
    page is fetched and no artefact or file changes. *)
Theorem declined_build_fetches_nothing
    (fuel : nat) (update : bool) (verbose : nat) (s : State) :
  (pk_catalogue s = None ∨ update = true →
   user_confirms W AskCollectCatalogue = false →
   ∃ s', get_subregion_downloads_catalogue W fuel update true verbose s = Return None s' ∧
         same_artefacts s s' ∧
         history s' = history s ++ EvAsk AskCollectCatalogue
                        :: (if truthy verbose then [EvPrint (MsgNoData DownloadCatalogue)]
                            else []))
  ∧ (pk_tier s = None ∨ update = true →
     user_confirms W AskCompileTier = false →
     ∃ s', get_region_subregion_tier W fuel update true verbose s = Return None s' ∧
           same_artefacts s s' ∧
           history s' = history s ++ EvAsk AskCompileTier
                          :: (if truthy verbose then [EvPrint (MsgNoData RegionSubregionTier)]
                              else [])).
Proof.
  split; intros Hbuild Hno.
  - unfold get_subregion_downloads_catalogue. erewrite bind_Return; [|reflexivity].
    assert (match pk_catalogue s, update with
            | Some c, false => true | _, _ => false end = false) as Hcase.
    { destruct Hbuild as [-> | ->]; [done | by destruct (pk_catalogue s)]. }
    destruct (pk_catalogue s) as [c|], update; try done;
      (unfold confirmed; erewrite bind_Return; [|erewrite bind_Return; reflexivity];
       rewrite Hno; unfold print_if; destruct (truthy verbose); simpl;
       (eexists; split; [reflexivity|]; split; [by repeat split|]);
       simpl; by rewrite <-?app_assoc).
  - unfold get_region_subregion_tier. erewrite bind_Return; [|reflexivity].
    assert (match pk_tier s, update with
            | Some c, false => true | _, _ => false end = false) as Hcase.
    { destruct Hbuild as [-> | ->]; [done | by destruct (pk_tier s)]. }
    destruct (pk_tier s) as [c|], update; try done;
      (unfold confirmed; erewrite bind_Return; [|erewrite bind_Return; reflexivity];
       rewrite Hno; unfold print_if; destruct (truthy verbose); simpl;
       (eexists; split; [reflexivity|]; split; [by repeat split|]);
       simpl; by rewrite <-?app_assoc).
Qed.

(** *** The name list needs the download index *)

(** X6.  [get_subregion_name_list] has no [try]: when it has to build the
    list and the download index can be neither loaded nor read, the failure
    of the index is printed and the call itself raises [AttributeError]
    (from [download_index.name] on [None]), with no artefact changed. *)
Theorem name_list_without_index_raises
    (update confirmation_required : bool) (verbose : nat) (s : State) (e : exn) :
  pk_name_list s = None ∨ update = true →
  pk_download_index s = None ∨ update = true →
  read_download_index W = Err e →
  confirmation_required = false ∨ user_confirms W AskGetNameList = true →
  ∃ s', get_subregion_name_list W update confirmation_required verbose s
          = Raise AttributeError s' ∧
        same_artefacts s s' ∧
        last (history s') = Some (EvPrint (MsgFailed e)).
Proof.
  intros Hlist Hindex Hread Hok.
  unfold get_subregion_name_list, get_index_of_all_downloads, confirmed, try_except,
    mbind, M_bind, get_state, emit, mret, M_ret, lift_result, raise.
  rewrite Hread.
  destruct (pk_name_list s) as [l|] eqn:Hl, update;
    try (by destruct Hlist); simpl;
    destruct confirmation_required; simpl;
    try (destruct Hok as [?| ->]; [done|]); simpl;
    try rewrite Hl; simpl;
    destruct (pk_download_index s) as [i|] eqn:Hi;
    try (by destruct Hindex); simpl; rewrite ?Hi; simpl;
    (eexists; split; [reflexivity|]; split; [by repeat split|]);
    simpl; by rewrite last_snoc.
Qed.

(** *** Built, pickled, reused *)

(** X7.  A tier that [get_region_subregion_tier] returns is, when
    [save_pickle] manages to write it, what every later call without
    [update] returns, and such a call leaves the state as it is: nothing is
    asked, fetched or saved again. *)
Theorem tier_build_then_reuse
    (fuel fuel' : nat) (update confirmation_required confirmation_required' : bool)
    (verbose verbose' : nat) (s s1 : State) (tier : PyDict * list string) :
  get_region_subregion_tier W fuel update confirmation_required verbose s
    = Return (Some tier) s1 →
  save_pickle_succeeds W RegionSubregionTier = true →
  get_region_subregion_tier W fuel' false confirmation_required' verbose' s1
    = Return (Some tier) s1.
Proof.
  intros H Hsave.
  assert (pk_tier s1 = Some tier) as Hpk.
  { unfold get_region_subregion_tier in H.
    apply bind_Return_inv in H as (s0 & s0' & [= <- <-] & H).
    destruct (pk_tier s) as [c0|] eqn:Hpk; [destruct update|];
      [ | by injection H as -> <- | ];
      (apply bind_Return_inv in H as (ok & s2 & _ & H); destruct ok;
       [ apply try_except_Return_inv in H as [H | (e & s3 & _ & H)];
         [ apply bind_Return_inv in H as ([tables|] & s3 & _ & H); [|done];
           apply bind_Return_inv in H as (t & s4 & _ & H);
           apply bind_Return_inv in H as ([] & s5 & Hs & H);
           injection H as -> ->;
           unfold save_pickle in Hs; rewrite Hsave in Hs; by simplify_eq
         | by apply bind_Return_inv in H as (? & ? & _ & H) ]
       | by apply bind_Return_inv in H as (? & ? & _ & H) ]). }
  unfold get_region_subregion_tier. erewrite bind_Return; [|reflexivity].
  by rewrite Hpk.
Qed.

(** X8.  The same for the catalogue: what
    [get_subregion_downloads_catalogue] returns is, when [save_pickle]
    manages to write it, what every later call without [update] returns,
    with the state left as it is. *)
Theorem catalogue_build_then_reuse
    (fuel fuel' : nat) (update confirmation_required confirmation_required' : bool)
    (verbose verbose' : nat) (s s1 : State) (c : DataFrame) :
  get_subregion_downloads_catalogue W fuel update confirmation_required verbose s
    = Return (Some c) s1 →
  save_pickle_succeeds W DownloadCatalogue = true →
  get_subregion_downloads_catalogue W fuel' false confirmation_required' verbose' s1
    = Return (Some c) s1.
Proof.
  intros H Hsave. apply catalogue_persisted in H; [|done].
  unfold get_subregion_downloads_catalogue. erewrite bind_Return; [|reflexivity].
  by rewrite H.
Qed.

(** *** A failed build changes nothing *)

Lemma keeps_artefacts_ret {A} (a : A) : keeps_artefacts (mret a).
Proof. intros s. apply same_artefacts_refl. Qed.

Lemma keeps_artefacts_raise {A} (e : exn) : keeps_artefacts (@raise A e).
Proof. intros s. apply same_artefacts_refl. Qed.

Lemma keeps_artefacts_diverge {A} : keeps_artefacts (@diverge A).
Proof. by intros s. Qed.

Lemma keeps_artefacts_lift_result {A} (r : result A) : keeps_artefacts (lift_result r).
Proof. destruct r; intros s; apply same_artefacts_refl. Qed.

Lemma keeps_artefacts_emit (ev : event) : keeps_artefacts (emit ev).
Proof. intros s. apply same_artefacts_log. Qed.

Lemma keeps_artefacts_print_if (c : bool) (m : message) : keeps_artefacts (print_if c m).
Proof. destruct c; [apply keeps_artefacts_emit | apply keeps_artefacts_ret]. Qed.

Lemma keeps_artefacts_bind {A B} (m : M A) (f : A → M B) :
  keeps_artefacts m → (∀ a, keeps_artefacts (f a)) → keeps_artefacts (m ≫= f).
Proof.
  intros Hm Hf s. unfold mbind, M_bind. specialize (Hm s).
  destruct (m s) as [a s1|e s1|]; [|done..].
  specialize (Hf a s1). destruct (f a s1); [| |done]; by eapply same_artefacts_trans.
Qed.

Lemma keeps_artefacts_confirmed (p : prompt) (c : bool) :
  keeps_artefacts (confirmed W p c).
Proof.
  destruct c; simpl; [|apply keeps_artefacts_ret].
  apply keeps_artefacts_bind; [apply keeps_artefacts_emit|].
  intros. apply keeps_artefacts_ret.
Qed.

Lemma keeps_artefacts_for_each {A B} (f : A → M B) (l : list A) :
  (∀ a, keeps_artefacts (f a)) → keeps_artefacts (for_each f l).
Proof.
  intros Hf. induction l as [|a l IH]; simpl; [apply keeps_artefacts_ret|].
  apply keeps_artefacts_bind; [done|]. intros b.
  apply keeps_artefacts_bind; [done|]. intros bs. apply keeps_artefacts_ret.
Qed.

Lemma keeps_artefacts_fold_each {A B} (f : B → A → M B) (l : list A) (b : B) :
  (∀ b a, keeps_artefacts (f b a)) → keeps_artefacts (fold_each f l b).
Proof.
  intros Hf. revert b. induction l as [|a l IH]; intros b; simpl;
    [apply keeps_artefacts_ret|].
  apply keeps_artefacts_bind; [done|]. intros b'. apply IH.
Qed.

Lemma keeps_artefacts_get_subregion_table (url : string) :
  keeps_artefacts (get_subregion_table W url).
Proof.
  unfold get_subregion_table. apply keeps_artefacts_bind; [apply keeps_artefacts_emit|].
  intros _. destruct (scrape_subregion_table W url) as [t|e];
    [apply keeps_artefacts_ret|].
  destruct (caught_by_get_subregion_table e);
    [apply keeps_artefacts_ret | apply keeps_artefacts_raise].
Qed.

Lemma keeps_artefacts_crawl_generation (subregion_url_tables avail : list Table) :
  keeps_artefacts (crawl_generation W subregion_url_tables avail).
Proof.
  unfold crawl_generation. apply keeps_artefacts_fold_each. intros st tbl.
  apply keeps_artefacts_bind;
    [apply keeps_artefacts_for_each, keeps_artefacts_get_subregion_table|].
  intros. apply keeps_artefacts_ret.
Qed.

Lemma keeps_artefacts_crawl (fuel : nat) (subregion_url_tables avail : list Table) :
  keeps_artefacts (crawl W fuel subregion_url_tables avail).
Proof.
  revert subregion_url_tables avail.
  induction fuel as [|fuel IH]; intros [|t ts] avail; simpl;
    try apply keeps_artefacts_ret; try apply keeps_artefacts_diverge.
  apply keeps_artefacts_bind; [apply keeps_artefacts_crawl_generation|].
  intros [? ?]. apply IH.
Qed.

Lemma raises_cleanly_bind {A B} (m : M A) (f : A → M B) :
  keeps_artefacts m → (∀ a, raises_cleanly (f a)) → raises_cleanly (m ≫= f).
Proof.
  intros Hm Hf s e s' H. specialize (Hm s).
  apply bind_Raise_inv in H as [H|(a & s1 & H1 & H)].
  - by rewrite H in Hm.
  - rewrite H1 in Hm. eapply same_artefacts_trans; [exact Hm|]. by eapply Hf.
Qed.

Lemma never_raises_cleanly {A} (m : M A) : never_raises m → raises_cleanly m.
Proof. intros Hm s e s' H. by apply Hm in H. Qed.

(** X9.  When [get_subregion_downloads_catalogue] returns [None], because
    the user declined or because anything at all failed during the crawl or
    the compaction, every artefact and every file is as it was before the
    call: in particular an older pickled catalogue is still there. *)
Theorem failed_catalogue_build_changes_nothing
    (fuel : nat) (update confirmation_required : bool) (verbose : nat) (s s' : State) :
  get_subregion_downloads_catalogue W fuel update confirmation_required verbose s
    = Return None s' →
  same_artefacts s s'.
Proof.
  unfold get_subregion_downloads_catalogue. intros H.
  apply bind_Return_inv in H as (s0 & s0' & [= <- <-] & H).
  destruct (pk_catalogue s) as [c0|] eqn:Hpk; [destruct update|]; [ |done| ];
    (apply bind_Return_inv in H as (ok & s2 & Hconf & H);
     pose proof (keeps_artefacts_confirmed AskCollectCatalogue confirmation_required s)
       as Hs2; rewrite Hconf in Hs2;
     eapply same_artefacts_trans; [exact Hs2|]; destruct ok;
     [ apply try_except_Return_inv in H as [H | (e & s3 & Hbody & H)];
       [ repeat (apply bind_Return_inv in H as (? & ? & _ & H)); done
       | apply bind_Return_inv in H as ([] & s4 & [= <-] & [= <-]);
         eapply same_artefacts_trans; [|apply same_artefacts_log];
         revert Hbody; apply raises_cleanly_bind; [apply keeps_artefacts_emit|];
         intros _; apply raises_cleanly_bind; [apply keeps_artefacts_lift_result|];
         intros soup; apply raises_cleanly_bind;
           [apply keeps_artefacts_for_each, keeps_artefacts_get_subregion_table|];
         intros tables; apply raises_cleanly_bind; [apply keeps_artefacts_crawl|];
         intros avail; apply raises_cleanly_bind;
           [apply keeps_artefacts_get_subregion_table|];
         intros home; apply raises_cleanly_bind; [apply keeps_artefacts_lift_result|];
         intros c; apply never_raises_cleanly;
         apply never_raises_bind; [apply never_raises_save_pickle|];
         intros; apply never_raises_ret ]
     | apply bind_Return_inv in H as ([] & s3 & Hp & [= <-]);
       pose proof (keeps_artefacts_print_if (truthy verbose)
                     (MsgNoData DownloadCatalogue) s2) as Hk;
       by rewrite Hp in Hk ]).
Qed.

(** *** One request for each listed page *)

Lemma get_subregion_table_history (url : string) (s s' : State) (t : option Table) :
  get_subregion_table W url s = Return t s' →
  history s' = history s ++ [EvFetch url].
Proof.
  unfold get_subregion_table. intros H.
  apply bind_Return_inv in H as ([] & s1 & [= <-] & H).
  destruct (scrape_subregion_table W url) as [tbl|e]; [by injection H as <- <-|].
  destruct (caught_by_get_subregion_table e); [by injection H as <- <-|done].
Qed.

Lemma for_each_get_subregion_table_history
    (urls : list string) (s s' : State) (ts : list (option Table)) :
  for_each (get_subregion_table W) urls s = Return ts s' →
  history s' = history s ++ (EvFetch <$> urls) ∧ length ts = length urls.
Proof.
  revert s ts. induction urls as [|url urls IH]; intros s ts; simpl.
  - intros [= <- <-]. by rewrite app_nil_r.
  - intros H. apply bind_Return_inv in H as (t & s1 & Ht & H).
    apply bind_Return_inv in H as (ts' & s2 & Hts & H). injection H as <- <-.
    apply get_subregion_table_history in Ht. apply IH in Hts as [Hh Hl].
    split; [|simpl; by f_equal]. rewrite Hh, Ht. by rewrite <-app_assoc.
Qed.

(** X10.  One round of the breadth-first crawl that completes requests every
    subregion page listed in the tables of the round, once each and in the
    order of the listing, and nothing else; it keeps what was available
    before as a prefix of what is available after, and changes no artefact
    or file. *)
Theorem crawl_generation_fetches_each_listed_page
    (subregion_url_tables avail avail' found : list Table) (s s' : State) :
  crawl_generation W subregion_url_tables avail s = Return (found, avail') s' →
  history s' = history s ++ (EvFetch <$> (subregion_url_tables ≫= fmap SubregionURL)) ∧
  avail `prefix_of` avail' ∧
  same_artefacts s s'.
Proof.
  intros H. split_and!.
  - revert H. unfold crawl_generation.
    generalize (@nil Table) as found0. revert avail s.
    induction subregion_url_tables as [|tbl tbls IH]; intros avail s found0; simpl.
    + intros [= <- <- <-]. by rewrite app_nil_r.
    + intros H. apply bind_Return_inv in H as ([f1 a1] & s1 & Hstep & H).
      apply bind_Return_inv in Hstep as (ts & s2 & Hts & Hstep).
      injection Hstep as <- <- <-.
      apply for_each_get_subregion_table_history in Hts as [Hh _].
      apply IH in H. rewrite H, Hh, fmap_app. by rewrite <-app_assoc.
  - revert H. unfold crawl_generation.
    generalize (@nil Table) as found0. revert avail s.
    induction subregion_url_tables as [|tbl tbls IH]; intros avail s found0; simpl.
    + by intros [= <- <- <-].
    + intros H. apply bind_Return_inv in H as ([f1 a1] & s1 & Hstep & H).
      apply bind_Return_inv in Hstep as (ts & s2 & Hts & Hstep).
      injection Hstep as <- <- <-. apply IH in H.
      etrans; [|exact H]. by apply prefix_app_r.
  - pose proof (keeps_artefacts_crawl_generation subregion_url_tables avail s) as Hk.
    by rewrite H in Hk.
Qed.

End Builders.

Lemma X5_witness :
  ∃ s', get_subregion_downloads_catalogue Sample.refusing 5 false true 1 Sample.fresh
          = Return None s' ∧
        same_artefacts Sample.fresh s' ∧
        history s' = [EvAsk AskCollectCatalogue; EvPrint (MsgNoData DownloadCatalogue)].
Proof.
  apply (declined_build_fetches_nothing Sample.refusing 5 false 1 Sample.fresh);
    [by left | reflexivity].
Defined.

Lemma X6_witness :
  ∃ s', get_subregion_name_list Sample.without_index false false 0 Sample.fresh
          = Raise AttributeError s' ∧
        last (history s') = Some (EvPrint (MsgFailed OtherException)).
Proof.
  edestruct (name_list_without_index_raises Sample.without_index false false 0 Sample.fresh)
    as (s' & Hrun & _ & Hlast);
    [by left | by left | reflexivity | by left |].
  exists s'. split; [exact Hrun | exact Hlast].
Defined.

Lemma X7_witness :
  ∃ tier s1,
    get_region_subregion_tier Sample.world 5 false false 0 Sample.fresh
      = Return (Some tier) s1 ∧
    get_region_subregion_tier Sample.world 0 false true 2 s1 = Return (Some tier) s1.
Proof.
  eexists _, _. split; [vm_compute; reflexivity|].
  eapply (tier_build_then_reuse Sample.world 5 0 false false true 0 2 Sample.fresh);
    vm_compute; reflexivity.
Defined.

Lemma X8_witness :
  ∃ c s1,
    get_subregion_downloads_catalogue Sample.world 5 true false 0 Sample.installed
      = Return (Some c) s1 ∧
    get_subregion_downloads_catalogue Sample.world 0 false true 2 s1 = Return (Some c) s1.
Proof.
  eexists _, _. split; [vm_compute; reflexivity|].
  eapply (catalogue_build_then_reuse Sample.world 5 0 true false true 0 2 Sample.installed);
    vm_compute; reflexivity.
Defined.

Lemma X9_witness :
  ∃ s', get_subregion_downloads_catalogue Sample.refusing 5 true true 0 Sample.installed
          = Return None s' ∧
        same_artefacts Sample.installed s'.
Proof.
  eexists. split; [vm_compute; reflexivity|].
  eapply (failed_catalogue_build_changes_nothing Sample.refusing 5 true true 0).
  vm_compute. reflexivity.
Defined.

Lemma X10_witness :
  ∃ found avail' s',
    crawl_generation Sample.world [Sample.great_britain_table] [] Sample.fresh
      = Return (found, avail') s' ∧
    history s'
      = [EvFetch (Sample.geofabrik "europe/great-britain/england.html");
         EvFetch (Sample.geofabrik "europe/great-britain/wales.html")].
Proof.
  eexists _, _, _. split; [vm_compute; reflexivity|].
  eapply (crawl_generation_fetches_each_listed_page Sample.world
            [Sample.great_britain_table] [] _ _ Sample.fresh).
  vm_compute. reflexivity.
Defined.

(** ** The compaction of the catalogue *)

Section Compaction.

Context (W : World).

Lemma result_bind_Ok_inv {A B} (r : result A) (f : A → result B) (b : B) :
  r ≫= f = Ok b → ∃ a, r = Ok a ∧ f a = Ok b.
Proof. destruct r as [a|e]; [|done]. intros H. by exists a. Qed.

Lemma fold_result_invariant {A B} (P : B → Prop) (f : B → A → result B) (l : list A)
    (b b' : B) :
  (∀ b a b', P b → f b a = Ok b' → P b') →
  P b → fold_result f l b = Ok b' → P b'.
Proof.
  intros Hf. revert b. induction l as [|a l IH]; intros b Hb; simpl.
  - by intros [= <-].
  - intros H. apply result_bind_Ok_inv in H as (b1 & Hstep & H).
    eapply IH; [|exact H]. by eapply Hf.
Qed.

Lemma labelled_rows {A} (l : list A) : (imap (λ i r, (i, r)) l).*2 = l.
Proof.
  rewrite fmap_imap. etrans; [|apply list_fmap_id].
  rewrite <-imap_const. by apply imap_ext.
Qed.

Lemma relabelled_rows (df : DataFrame) : (imap (λ i ir, (i, ir.2)) df).*2 = df.*2.
Proof. rewrite fmap_imap. rewrite <-imap_const. by apply imap_ext. Qed.

Lemma relabelled_index (df : DataFrame) :
  (imap (λ i ir, (i, ir.2)) df).*1 = seq 0 (length df).
Proof.
  rewrite fmap_imap. etrans; [|apply list_fmap_id].
  rewrite <-(imap_seq_0 df id). by apply imap_ext.
Qed.

Lemma pd_concat_Ok (tables : list (option Table)) (df : DataFrame) :
  pd_concat tables = Ok df → df.*2 = concat (omap id tables).
Proof.
  unfold pd_concat. destruct (omap id tables) as [|t ts] eqn:E; [done|].
  intros [= <-]. rewrite labelled_rows.
  change (t ++ concat ts) with (concat (t :: ts)). by rewrite <-E.
Qed.

Lemma drop_duplicates_from_rows (seen : list Row) (df : DataFrame) :
  NoDup (drop_duplicates_from seen df).*2 ∧
  (drop_duplicates_from seen df).*2 `sublist_of` df.*2 ∧
  (∀ r, r ∈ (drop_duplicates_from seen df).*2 → r ∉ seen).
Proof.
  revert seen. induction df as [|[i r] df IH]; intros seen; simpl.
  - split_and!; [constructor | done | by intros ? ?%elem_of_nil].
  - destruct (decide (r ∈ seen)) as [Hin|Hnot].
    + destruct (IH seen) as (? & ? & ?). split_and!; [done | by constructor | done].
    + destruct (IH (r :: seen)) as (Hnd & Hsub & Hseen). simpl. split_and!.
      * constructor; [|done]. intros Hr. apply Hseen in Hr.
        apply Hr, elem_of_cons. by left.
      * by constructor.
      * intros r' [->|Hr']%elem_of_cons; [done|].
        apply Hseen in Hr'. intros ?. apply Hr', elem_of_cons. by right.
Qed.

Lemma drop_labels_Ok (idx : list nat) (df df' : DataFrame) :
  drop_labels idx df = Ok df' → df' = filter (λ ir, ir.1 ∉ idx) df.
Proof. unfold drop_labels. destruct (forallb _ idx); [by intros [= <-] | done]. Qed.

Lemma filtered_rows (P : nat * Row → Prop) `{!∀ x, Decision (P x)} (df : DataFrame) :
  (filter P df).*2 `sublist_of` df.*2.
Proof. apply fmap_sublist, sublist_filter. Qed.

Lemma drop_smallest_in_slice_rows (duplicated df df' : DataFrame) (i : nat) :
  drop_smallest_in_slice W duplicated df i = Ok df' → df'.*2 `sublist_of` df.*2.
Proof.
  unfold drop_smallest_in_slice. intros H.
  apply result_bind_Ok_inv in H as (size & _ & H).
  destruct size as [|x xs]; [by injection H as <-|].
  apply drop_labels_Ok in H as ->. apply filtered_rows.
Qed.

(** X11.  The rows of a compacted catalogue are rows of the tables it was
    made from, in their order of listing, and no row occurs twice: whatever
    the treatment of the name duplicates does, exact duplicates are gone and
    nothing is invented. *)
Theorem compact_catalogue_rows
    (avail_subregion_url_tables : list (option Table)) (df : DataFrame) :
  compact_catalogue W avail_subregion_url_tables = Ok df →
  NoDup df.*2 ∧ df.*2 `sublist_of` concat (omap id avail_subregion_url_tables).
Proof.
  unfold compact_catalogue. intros H.
  apply result_bind_Ok_inv in H as (cat0 & Hcat0 & H).
  apply pd_concat_Ok in Hcat0 as <-.
  destruct (drop_duplicates_from_rows [] cat0) as (Hnd & Hsub & _).
  fold (drop_duplicates cat0) in Hnd, Hsub.
  assert (NoDup df.*2 ∧ df.*2 `sublist_of` (drop_duplicates cat0).*2) as [? ?];
    [|split; [done | by etrans]].
  destruct (duplicated_rows (drop_duplicates cat0)) as [|d ds]; [by injection H as <-|].
  apply result_bind_Ok_inv in H as (indices & _ & H).
  apply result_bind_Ok_inv in H as (cat' & Hfold & [= <-]).
  rewrite relabelled_rows.
  eapply (fold_result_invariant
            (λ x, NoDup x.*2 ∧ x.*2 `sublist_of` (drop_duplicates cat0).*2))
    in Hfold; [done| |done].
  intros b a b' [Hb1 Hb2] Hstep. apply drop_smallest_in_slice_rows in Hstep.
  split; [by eapply sublist_NoDup | by etrans].
Qed.

(** X12.  The index of a compacted catalogue: it is renumbered 0, 1, 2, ...
    when some name was listed more than once; when no name was, the result is
    the concatenation with its exact duplicates dropped and nothing more,
    each row still under the label of its first occurrence. *)
Theorem compact_catalogue_index
    (avail_subregion_url_tables : list (option Table)) (cat0 df : DataFrame) :
  pd_concat avail_subregion_url_tables = Ok cat0 →
  compact_catalogue W avail_subregion_url_tables = Ok df →
  (duplicated_rows (drop_duplicates cat0) ≠ [] → df.*1 = seq 0 (length df)) ∧
  (duplicated_rows (drop_duplicates cat0) = [] → df = drop_duplicates cat0).
Proof.
  unfold compact_catalogue. intros -> H. simpl in H.
  destruct (duplicated_rows (drop_duplicates cat0)) as [|d ds].
  - injection H as <-. by split.
  - split; [intros _|done].
    apply result_bind_Ok_inv in H as (indices & _ & H).
    apply result_bind_Ok_inv in H as (cat' & _ & [= <-]).
    by rewrite relabelled_index, length_imap.
Qed.

Lemma duplicated_rows_label (df : DataFrame) (ir : nat * Row) :
  ir ∈ duplicated_rows df → ir.1 ∈ df.*1.
Proof.
  unfold duplicated_rows. intros [_ Hin]%list_elem_of_filter.
  by apply list_elem_of_fmap_2.
Qed.

(** X13.  What the treatment of name duplicates does, whatever their number:
    it parses the sizes of the first two duplicated rows only, drops the one
    whose size is smaller, both when the sizes are equal, keeps every other
    row, and renumbers. *)
Theorem compact_catalogue_examines_first_two
    (avail_subregion_url_tables : list (option Table)) (cat0 : DataFrame)
    (first second : nat * Row) (others : DataFrame) (n1 n2 : N) :
  pd_concat avail_subregion_url_tables = Ok cat0 →
  duplicated_rows (drop_duplicates cat0) = first :: second :: others →
  parsed_size W (osm_pbf_Size first.2) = Ok n1 →
  parsed_size W (osm_pbf_Size second.2) = Ok n2 →
  compact_catalogue W avail_subregion_url_tables
    = Ok (imap (λ i ir, (i, ir.2))
               (filter (λ ir, ir.1 ∉ (if decide (n1 ≤ n2)%N then [first.1] else [])
                                       ++ (if decide (n2 ≤ n1)%N then [second.1] else []))
                       (drop_duplicates cat0))).
Proof.
  intros Hcat Hdup H1 H2. unfold compact_catalogue. rewrite Hcat. simpl.
  rewrite Hdup. simpl. unfold drop_smallest_in_slice. simpl.
  rewrite H1. simpl. rewrite H2. simpl.
  assert (first.1 ∈ (drop_duplicates cat0).*1) as Hf.
  { apply duplicated_rows_label. rewrite Hdup. apply elem_of_cons. by left. }
  assert (second.1 ∈ (drop_duplicates cat0).*1) as Hs.
  { apply duplicated_rows_label. rewrite Hdup. rewrite !elem_of_cons. auto. }
  rewrite !filter_cons, filter_nil. simpl.
  destruct (decide (n1 = N.min n2 n1)) as [E1|E1],
           (decide (n2 = N.min n2 n1)) as [E2|E2],
           (decide (n1 ≤ n2)%N) as [L1|L1], (decide (n2 ≤ n1)%N) as [L2|L2];
    try lia; simpl; unfold drop_labels; simpl;
    rewrite ?(bool_decide_eq_true_2 _ Hf), ?(bool_decide_eq_true_2 _ Hs); simpl;
    reflexivity.
Qed.

(** X14.  A duplicated row without a size stops the compaction: when the
    first duplicated row holds [None] as its size, or the first parses and
    the second holds [None], [x.strip] raises [AttributeError]. *)
Theorem compact_catalogue_missing_size
    (avail_subregion_url_tables : list (option Table)) (cat0 : DataFrame)
    (first second : nat * Row) (others : DataFrame) :
  pd_concat avail_subregion_url_tables = Ok cat0 →
  duplicated_rows (drop_duplicates cat0) = first :: second :: others →
  osm_pbf_Size first.2 = None
    ∨ ((∃ n1, parsed_size W (osm_pbf_Size first.2) = Ok n1)
       ∧ osm_pbf_Size second.2 = None) →
  compact_catalogue W avail_subregion_url_tables = Err AttributeError.
Proof.
  intros Hcat Hdup Hnone. unfold compact_catalogue. rewrite Hcat. simpl.
  rewrite Hdup. simpl. unfold drop_smallest_in_slice. simpl.
  destruct Hnone as [->|[[n1 ->] ->]]; reflexivity.
Qed.

End Compaction.

Lemma X11_witness :
  ∃ df, compact_catalogue Sample.world Sample.cross_listed = Ok df ∧ NoDup df.*2.
Proof.
  eexists. split; [vm_compute; reflexivity|].
  eapply (compact_catalogue_rows Sample.world Sample.cross_listed).
  vm_compute. reflexivity.
Defined.

Lemma X12_witness :
  ∃ df, compact_catalogue Sample.world Sample.cross_listed = Ok df ∧ df.*1 = [0; 1; 2].
Proof.
  eexists. split; [vm_compute; reflexivity|].
  eapply (compact_catalogue_index Sample.world Sample.cross_listed);
    [vm_compute; reflexivity | vm_compute; reflexivity | by vm_compute].
Defined.

Lemma X13_witness :
  compact_catalogue Sample.world
                    [Some [Sample.georgia_country]; Some [Sample.georgia_state]]
    = Ok [(0, Sample.georgia_state)].
Proof.
  erewrite (compact_catalogue_examines_first_two Sample.world
              [Some [Sample.georgia_country]; Some [Sample.georgia_state]]);
    [|vm_compute; reflexivity..].
  vm_compute. reflexivity.
Defined.

Lemma X14_witness :
  compact_catalogue Sample.world
    [Some [Sample.georgia_country];
     Some [Sample.row "Georgia" "north-america/us/georgia.html" None None None]]
    = Err AttributeError.
Proof.
  eapply (compact_catalogue_missing_size Sample.world);
    [vm_compute; reflexivity | vm_compute; reflexivity |].
  right. split; [eexists; vm_compute; reflexivity | reflexivity].
Defined.

(** ** Names of subregions *)

Section Subregions.

Context (W : World).

Lemma PyVal_nested_ind (P : PyVal → Prop) :
  P VNone → (∀ t, P (VTable t)) → (∀ names, P (VSet names)) →
  (∀ d, Forall (λ kv, P kv.2) d → P (VDict d)) →
  ∀ v, P v.
Proof.
  intros HN HT HS HD. fix F 1. intros [|t|names|d]; [done..|].
  apply HD. revert d. fix G 1. intros [|[k v] d]; constructor; [apply F | apply G].
Qed.

Lemma find_subregions_in_keys (n : string) (v : PyVal) :
  find_subregions_in (Some n) v ≠ [] ↔ n ∈ keys_in v.
Proof.
  induction v as [|t|names|d IH] using PyVal_nested_ind; simpl;
    try (split; [done | by intros ?%elem_of_nil]).
  induction IH as [|[k v] d IHv _ IHd]; simpl; [split; [done | by intros ?%elem_of_nil]|].
  rewrite elem_of_cons, elem_of_app, <-IHd. simpl in IHv. rewrite <-IHv.
  destruct (decide (Some n = Some k)) as [[= ->]|Hne].
  - split; [by left|]. intros _. by destruct v.
  - split.
    + intros H. right.
      destruct (find_subregions_in (Some n) v); [right|left]; done.
    + intros [->|[H|H]]; [done| |].
      * by destruct (find_subregions_in (Some n) v).
      * intros [_ ?]%app_eq_nil. done.
Qed.

(** X15.  With the tier pickled, asking for the subregions of a name that is
    a key of the tier at no depth raises [IndexError], in the state the name
    resolution left; a name that is a key somewhere gets a list. *)
Theorem retrieve_names_of_an_unknown_region
    (fuel : nat) (region : string) (s s1 : State)
    (tier : PyDict) (leaves : list string) (reg_name : string) :
  pk_tier s = Some (tier, leaves) →
  regulate_input_subregion_name W region s = Return (Some reg_name) s1 →
  (reg_name ∉ all_keys tier →
   retrieve_names_of_subregions_of W fuel [region] false s = Raise IndexError s1) ∧
  (reg_name ∈ all_keys tier →
   ∃ names, retrieve_names_of_subregions_of W fuel [region] false s
              = Return (Some names) s1).
Proof.
  intros Hpk Hreg.
  assert (get_region_subregion_tier W fuel false true 0 s = Return (Some (tier, leaves)) s)
    as Htier.
  { unfold get_region_subregion_tier. erewrite bind_Return; [|reflexivity].
    by rewrite Hpk. }
  unfold retrieve_names_of_subregions_of, retrieve_names_of_subregions_of_shallow.
  erewrite bind_Return by exact Htier. cbv beta iota. unfold subregions_of_each. simpl.
  pose proof (find_subregions_in_keys reg_name (VDict tier)) as Hkeys.
  fold (find_subregions (Some reg_name) tier) in Hkeys. fold (all_keys tier) in Hkeys.
  split; intros Hk.
  - apply bind_Raise, bind_Raise. erewrite bind_Return by exact Hreg.
    destruct (find_subregions (Some reg_name) tier) as [|found rest]; [done|].
    exfalso. apply Hk, Hkeys. done.
  - apply Hkeys in Hk.
    destruct (find_subregions (Some reg_name) tier) as [|found rest] eqn:Hfound; [done|].
    exists found. erewrite bind_Return; [reflexivity|].
    erewrite bind_Return; [reflexivity|].
    erewrite bind_Return by exact Hreg. by rewrite Hfound.
Qed.

(** X16.  The deep expansion returns every name once: whatever the regions
    asked for and whatever their subregions, the list returned with
    [deep=True] has no repetition. *)
Theorem retrieve_names_deep_has_no_repetition
    (fuel : nat) (subregion_name : list string) (s s' : State) (names : list string) :
  subregion_name ≠ [] →
  retrieve_names_of_subregions_of W fuel subregion_name true s = Return (Some names) s' →
  NoDup names.
Proof.
  intros Hne H. unfold retrieve_names_of_subregions_of in H.
  apply bind_Return_inv in H as (tier & s1 & _ & H).
  destruct subregion_name as [|n ns]; [done|].
  apply bind_Return_inv in H as (res & s2 & _ & H).
  apply bind_Return_inv in H as (res_ & s3 & _ & H).
  injection H as <- <-. apply unique_everseen_from_NoDup.
Qed.

(** X17.  The errors of the lookup once the format is accepted: without a
    catalogue ([None], after a declined or failed build) the call raises
    [AttributeError]; with a catalogue in which no row bears the resolved
    name it raises [KeyError], the name list and the catalogue coming from
    different sources. *)
Theorem get_subregion_download_url_errors
    (fuel : nat) (subregion_name osm_file_format file_format_ : string) (update : bool)
    (verbose : nat) (s s1 : State) :
  find_similar_str W osm_file_format ValidFileFormats = Some file_format_ →
  file_format_ ∈ ValidFileFormats →
  (get_subregion_downloads_catalogue W fuel update true verbose s = Return None s1 →
   get_subregion_download_url W fuel subregion_name osm_file_format update verbose s
     = Raise AttributeError s1) ∧
  (∀ index s2 subregion_name_,
      get_subregion_downloads_catalogue W fuel update true verbose s
        = Return (Some index) s1 →
      regulate_input_subregion_name W subregion_name s1
        = Return (Some subregion_name_) s2 →
      subregion_name_ ≠ "" →
      (∀ ir, ir ∈ index → Subregion ir.2 ≠ subregion_name_) →
      get_subregion_download_url W fuel subregion_name osm_file_format update verbose s
        = Raise KeyError s2).
Proof.
  intros Hff Hin. unfold get_subregion_download_url. rewrite Hff.
  destruct (decide (file_format_ ∈ ValidFileFormats)); [|done].
  unfold lookup_download_url. split.
  - intros Hcat. by erewrite bind_Return by exact Hcat.
  - intros index s2 n_ Hcat Hreg Hne Hrows.
    erewrite bind_Return by exact Hcat. cbv beta iota.
    erewrite bind_Return by exact Hreg. unfold not_identified.
    rewrite bool_decide_eq_false_2 by done.
    change (default "" (Some n_)) with n_.
    unfold loc, DataFrame. rewrite filter_none; [done|].
    intros ir Hir. by apply Hrows.
Qed.

End Subregions.

Lemma X15_witness :
  retrieve_names_of_subregions_of Sample.world 5 ["United States of America"] false
                                  Sample.installed
    = Raise IndexError Sample.installed.
Proof.
  eapply (retrieve_names_of_an_unknown_region Sample.world 5 "United States of America"
            Sample.installed); [vm_compute; reflexivity.. |].
  apply (bool_decide_unpack _). by vm_compute.
Defined.

Lemma X16_witness :
  NoDup ["Malta"; "Russian Federation"; "England"; "Wales"].
Proof.
  eapply (retrieve_names_deep_has_no_repetition Sample.world 5 ["europe"] Sample.installed);
    [done | vm_compute; reflexivity].
Defined.

Lemma X17_witness :
  get_subregion_download_url Sample.world 5 "United States of America" ".osm.pbf" false 0
                             Sample.installed
    = Raise KeyError Sample.installed.
Proof.
  eapply (get_subregion_download_url_errors Sample.world 5 "United States of America"
            ".osm.pbf" ".osm.pbf" false 0 Sample.installed);
    [vm_compute; reflexivity | apply elem_of_cons; by left
    | vm_compute; reflexivity | vm_compute; reflexivity | done |].
  intros ir Hir. vm_compute in Hir.
  repeat (apply elem_of_cons in Hir as [->|Hir]; [by vm_compute|]).
  by apply elem_of_nil in Hir.
Defined.

(** ** The orchestrator on an installation with its pickles *)

Section Installed.

Context (W : World).

Lemma catalogue_installed
    (fuel : nat) (confirmation_required : bool) (verbose : nat) (s : State) (c : DataFrame) :
  pk_catalogue s = Some c →
  get_subregion_downloads_catalogue W fuel false confirmation_required verbose s
    = Return (Some c) s.
Proof.
  intros Hc. unfold get_subregion_downloads_catalogue.
  erewrite bind_Return; [|reflexivity]. by rewrite Hc.
Qed.

Lemma name_list_installed
    (confirmation_required : bool) (verbose : nat) (s : State) (l : list string) :
  pk_name_list s = Some l →
  get_subregion_name_list W false confirmation_required verbose s = Return l s.
Proof.
  intros Hl. unfold get_subregion_name_list.
  erewrite bind_Return; [|reflexivity]. by rewrite Hl.
Qed.

Lemma regulate_installed (subregion_name : string) (s : State) (l : list string) :
  pk_name_list s = Some l →
  regulate_input_subregion_name W subregion_name s
    = Return (if os_path_isdir W (os_path_dirname W subregion_name)
                 || negb (bool_decide (urlparse_path W subregion_name = ""))
              then find_similar_str W (os_path_basename W subregion_name) l
              else find_similar_str W subregion_name l) s.
Proof.
  intros Hl. unfold regulate_input_subregion_name.
  erewrite bind_Return by (by apply name_list_installed).
  by destruct (_ || _).
Qed.

(** With the catalogue and the name list pickled, looking a URL up asks
    nothing, fetches nothing and leaves the state as it is, and its result
    does not depend on the downloaded files or on the history. *)
Lemma get_subregion_download_url_installed
    (fuel : nat) (subregion_name osm_file_format : string) (verbose : nat)
    (s t s' : State) (c : DataFrame) (l : list string) (r : string * Cell) :
  pk_catalogue s = Some c → pk_name_list s = Some l →
  pk_catalogue t = Some c → pk_name_list t = Some l →
  get_subregion_download_url W fuel subregion_name osm_file_format false verbose s
    = Return r s' →
  s' = s ∧
  get_subregion_download_url W fuel subregion_name osm_file_format false verbose t
    = Return r t.
Proof.
  intros Hc Hl Hc' Hl'. unfold get_subregion_download_url.
  destruct (find_similar_str W osm_file_format ValidFileFormats) as [ff|]; [|done].
  destruct (decide (ff ∈ ValidFileFormats)); [|done].
  unfold lookup_download_url.
  rewrite (bind_Return _ _ s _ s (catalogue_installed fuel true verbose s c Hc)).
  rewrite (bind_Return _ _ t _ t (catalogue_installed fuel true verbose t c Hc')).
  cbv beta iota.
  rewrite (bind_Return _ _ s _ s (regulate_installed subregion_name s l Hl)).
  rewrite (bind_Return _ _ t _ t (regulate_installed subregion_name t l Hl')).
  destruct (not_identified _); [done|].
  destruct (loc c _ ff) as [cell|err]; [|done].
  unfold mbind, M_bind. simpl. by intros [= <- <-].
Qed.

Lemma get_default_path_to_osm_file_installed
    (fuel : nat) (subregion_name osm_file_format : string) (mkdir : bool) (verbose : nat)
    (s t s' : State) (c : DataFrame) (l : list string) (r : option (string * string)) :
  pk_catalogue s = Some c → pk_name_list s = Some l →
  pk_catalogue t = Some c → pk_name_list t = Some l →
  verbose = 0 →
  get_default_path_to_osm_file W fuel subregion_name osm_file_format mkdir false verbose s
    = Return r s' →
  s' = s ∧
  get_default_path_to_osm_file W fuel subregion_name osm_file_format mkdir false verbose t
    = Return r t.
Proof.
  intros Hc Hl Hc' Hl' -> H. unfold get_default_path_to_osm_file in *.
  apply bind_Return_inv in H as ([n_ cell] & s1 & Hurl & H).
  eapply get_subregion_download_url_installed in Hurl as [-> Hurl']; [|done..].
  erewrite bind_Return by exact Hurl'. cbv beta iota in *.
  destruct cell as [[url|]|]; [| |done].
  - rewrite (bind_Return _ _ s _ s (name_list_installed true 0 s l Hl)) in H.
    rewrite (bind_Return _ _ t _ t (name_list_installed true 0 t l Hl')).
    destruct (cd_dat_geofabrik W _ mkdir) as [directory|e]; [|done].
    unfold mbind, M_bind in *. simpl in *. by injection H as <- <-.
  - unfold mbind, M_bind in *. simpl in *. by injection H as <- <-.
Qed.

Lemma target_of_installed
    (fuel : nat) (subregion_name_ osm_file_format : string) (download_dir : option string)
    (s t s' : State) (c : DataFrame) (l : list string) (r : option (string * string)) :
  pk_catalogue s = Some c → pk_name_list s = Some l →
  pk_catalogue t = Some c → pk_name_list t = Some l →
  target_of W fuel subregion_name_ osm_file_format download_dir s = Return r s' →
  s' = s ∧ target_of W fuel subregion_name_ osm_file_format download_dir t = Return r t.
Proof.
  intros Hc Hl Hc' Hl' H. unfold target_of in *. destruct (no_dir download_dir).
  - by eapply get_default_path_to_osm_file_installed.
  - unfold get_default_osm_filename in *.
    apply bind_Return_inv in H as (f & s1 & H & [= <- <-]).
    apply bind_Return_inv in H as ([n_ cell] & s2 & Hurl & H).
    eapply get_subregion_download_url_installed in Hurl as [-> Hurl']; [|done..].
    destruct cell as [[url|]|]; [| |done]; injection H as <- <-; (split; [done|]);
      (erewrite bind_Return; [reflexivity|]); by erewrite bind_Return by exact Hurl'.
Qed.

(** A declined download. *)
Lemma fetch_file_declined
    (subregion_name_ osm_file_format : string) (download_url : Cell)
    (osm_filename path_to_file : string) (update : bool) (verbose : nat) (s : State) :
  path_to_file ∉ files s ∨ update = true →
  user_confirms W (AskDownload osm_file_format subregion_name_) = false →
  ∃ s', fetch_file W subregion_name_ osm_file_format download_url osm_filename path_to_file
                   update true verbose s = Return () s' ∧
        files s' = files s ∧
        downloader_calls s' = downloader_calls s.
Proof.
  intros Hnew Hno. unfold fetch_file. erewrite bind_Return; [|reflexivity].
  assert (bool_decide (path_to_file ∈ files s) && negb update = false) as ->.
  { destruct Hnew as [?| ->]; [by rewrite bool_decide_eq_false_2 | apply andb_false_r]. }
  unfold confirmed. erewrite bind_Return; [|erewrite bind_Return; reflexivity].
  rewrite Hno. unfold print_if.
  destruct (verbose =? 2)%nat; simpl; (eexists; split; [reflexivity|]); (split; [done|]);
    rewrite !downloader_calls_log; simpl; by rewrite ?app_nil_r.
Qed.

(** X18.  A download the user declines is no error and no download: the call
    for that name returns, the downloader has not been called and no file
    has appeared. *)
Theorem declined_download_downloads_nothing
    (depth fuel : nat) (sub_reg_name osm_file_format : string)
    (download_dir : option string) (update deep_retry : bool)
    (interval_sec verbose : nat) (s s1 s2 : State)
    (subregion_name_ url osm_filename path_to_file : string) :
  get_subregion_download_url W fuel sub_reg_name osm_file_format false 0 s
    = Return (subregion_name_, Scalar (Some url)) s1 →
  target_of W fuel subregion_name_ osm_file_format download_dir s1
    = Return (Some (osm_filename, path_to_file)) s2 →
  path_to_file ∉ files s ∨ update = true →
  user_confirms W (AskDownload osm_file_format subregion_name_) = false →
  ∃ s3,
    download_subregion_osm_file W (S depth) fuel [sub_reg_name] osm_file_format
      download_dir update true deep_retry interval_sec verbose s = Return () s3 ∧
    downloader_calls s3 = downloader_calls s ∧
    files s3 = files s.
Proof.
  intros Hurl Htarget Hnew Hno. simpl.
  edestruct (download_item_hit W) as (Hitem & Hf2 & Hd2); [exact Hurl | exact Htarget |].
  edestruct (fetch_file_declined subregion_name_ osm_file_format (Scalar (Some url))
               osm_filename path_to_file update verbose s2)
    as (s' & Hfetch & Hf & Hd); [by rewrite Hf2 | done |].
  destruct (sleep_spec interval_sec s') as (s3 & Hsleep & Hf3 & Hd3 & _).
  exists s3. split_and!; [|congruence..].
  erewrite bind_Return; cycle 1.
  { rewrite Hitem. erewrite bind_Return by exact Hfetch. reflexivity. }
  by erewrite bind_Return by exact Hsleep.
Qed.

(** A download that succeeds. *)
Lemma fetch_file_succeeds
    (subregion_name_ osm_file_format url osm_filename path_to_file : string)
    (update confirmation_required : bool) (verbose : nat) (s : State) :
  path_to_file ∉ files s ∨ update = true →
  confirmation_required = false
    ∨ user_confirms W (AskDownload osm_file_format subregion_name_) = true →
  download_file_from_url W url path_to_file = None →
  ∃ s', fetch_file W subregion_name_ osm_file_format (Scalar (Some url)) osm_filename
                   path_to_file update confirmation_required verbose s = Return () s' ∧
        path_to_file ∈ files s' ∧
        pk_catalogue s' = pk_catalogue s ∧
        pk_name_list s' = pk_name_list s ∧
        downloader_calls s'
          = downloader_calls s ++ [EvDownloadFile (Scalar (Some url)) path_to_file None].
Proof.
  intros Hnew Hok Hdl. unfold fetch_file. erewrite bind_Return; [|reflexivity].
  assert (bool_decide (path_to_file ∈ files s) && negb update = false) as ->.
  { destruct Hnew as [?| ->]; [by rewrite bool_decide_eq_false_2 | apply andb_false_r]. }
  unfold confirmed, print_if, try_except, download_file, emit, mbind, M_bind, mret, M_ret.
  assert ((if confirmation_required
           then user_confirms W (AskDownload osm_file_format subregion_name_)
           else true) = true) as Hyes.
  { destruct confirmation_required; [|done]. by destruct Hok. }
  destruct confirmation_required; simpl; rewrite ?Hyes;
    destruct (truthy verbose); simpl; rewrite Hdl;
    (eexists; split; [reflexivity|]);
    (split; [simpl; set_solver|]); (split; [done|]); (split; [done|]);
    unfold downloader_calls; simpl;
    rewrite ?List.filter_app; simpl; by rewrite ?app_nil_r.
Qed.

Lemma sleep_keeps_pickles (interval_sec : nat) (s s' : State) :
  (if (interval_sec =? 0)%nat then mret () else emit (EvSleep interval_sec)) s
    = Return () s' →
  pk_catalogue s' = pk_catalogue s ∧ pk_name_list s' = pk_name_list s.
Proof. destruct (interval_sec =? 0)%nat; by intros [= <-]. Qed.

(** X19.  Downloading twice.  On an installation with its catalogue and name
    list pickled, take a name with a URL for the format and no file yet.  A
    first call, confirmed, whose download succeeds calls the downloader once
    and leaves the file; a second call without [update], whatever its other
    options, finds the file and calls the downloader not at all. *)
Theorem download_then_skip
    (depth depth' fuel : nat) (sub_reg_name osm_file_format : string)
    (download_dir : option string) (update confirmation_required deep_retry : bool)
    (confirmation_required' deep_retry' : bool)
    (interval_sec verbose interval_sec' verbose' : nat) (s s1 s2 : State)
    (c : DataFrame) (l : list string)
    (subregion_name_ url osm_filename path_to_file : string) :
  pk_catalogue s = Some c → pk_name_list s = Some l →
  get_subregion_download_url W fuel sub_reg_name osm_file_format false 0 s
    = Return (subregion_name_, Scalar (Some url)) s1 →
  target_of W fuel subregion_name_ osm_file_format download_dir s1
    = Return (Some (osm_filename, path_to_file)) s2 →
  path_to_file ∉ files s →
  confirmation_required = false
    ∨ user_confirms W (AskDownload osm_file_format subregion_name_) = true →
  download_file_from_url W url path_to_file = None →
  ∃ s3 s4,
    download_subregion_osm_file W (S depth) fuel [sub_reg_name] osm_file_format
      download_dir update confirmation_required deep_retry interval_sec verbose s
      = Return () s3 ∧
    downloader_calls s3
      = downloader_calls s ++ [EvDownloadFile (Scalar (Some url)) path_to_file None] ∧
    path_to_file ∈ files s3 ∧
    download_subregion_osm_file W (S depth') fuel [sub_reg_name] osm_file_format
      download_dir false confirmation_required' deep_retry' interval_sec' verbose' s3
      = Return () s4 ∧
    downloader_calls s4 = downloader_calls s3.
Proof.
  intros Hc Hl Hurl Htarget Hnew Hok Hdl.
  pose proof Hurl as Hurl0.
  eapply get_subregion_download_url_installed in Hurl0 as [-> _]; [|done..].
  pose proof Htarget as Htarget0.
  eapply target_of_installed in Htarget0 as [-> _]; [|done..].
  edestruct (download_item_hit W) as (Hitem & _ & _); [exact Hurl | exact Htarget |].
  edestruct (fetch_file_succeeds subregion_name_ osm_file_format url osm_filename
               path_to_file update confirmation_required verbose s)
    as (s' & Hfetch & Hfile & Hc1 & Hl1 & Hd1); [by left | done | done |].
  destruct (sleep_spec interval_sec s') as (s3 & Hsleep & Hf3 & Hd3 & _).
  pose proof (sleep_keeps_pickles _ _ _ Hsleep) as [Hc3 Hl3].
  assert (pk_catalogue s3 = Some c) as Hc3' by congruence.
  assert (pk_name_list s3 = Some l) as Hl3' by congruence.
  assert (path_to_file ∈ files s3) as Hfile3 by (by rewrite Hf3).
  eapply (get_subregion_download_url_installed fuel _ _ 0 s s3) in Hurl as [_ Hurl3];
    [|done..].
  eapply (target_of_installed fuel _ _ _ s s3) in Htarget as [_ Htarget3]; [|done..].
  edestruct (download_item_hit W) as (Hitem3 & _ & _); [exact Hurl3 | exact Htarget3 |].
  edestruct (fetch_file_skips W subregion_name_ osm_file_format (Scalar (Some url))
               osm_filename path_to_file confirmation_required' verbose' s3)
    as (s'' & Hskip & _ & Hd'' & _); [done|].
  destruct (sleep_spec interval_sec' s'') as (s4 & Hsleep4 & _ & Hd4 & _).
  exists s3, s4. split_and!.
  - simpl. erewrite bind_Return; cycle 1.
    { rewrite Hitem. erewrite bind_Return by exact Hfetch. reflexivity. }
    by erewrite bind_Return by exact Hsleep.
  - congruence.
  - done.
  - simpl. erewrite bind_Return; cycle 1.
    { rewrite Hitem3. erewrite bind_Return by exact Hskip. reflexivity. }
    by erewrite bind_Return by exact Hsleep4.
  - congruence.
Qed.

End Installed.

Lemma X18_witness :
  ∃ s3,
    download_subregion_osm_file Sample.refusing 1 5 ["malta"] ".osm.pbf" None
                                false true false 5 2 Sample.installed
      = Return () s3 ∧
    downloader_calls s3 = downloader_calls Sample.installed ∧
    files s3 = files Sample.installed.
Proof.
  eapply (declined_download_downloads_nothing Sample.refusing 0 5 "malta" ".osm.pbf" None
            false false 5 2 Sample.installed);
    [vm_compute; reflexivity | vm_compute; reflexivity | left; apply not_elem_of_empty
    | reflexivity].
Defined.

Lemma X19_witness :
  ∃ s3 s4,
    download_subregion_osm_file Sample.world 1 5 ["malta"] ".osm.pbf" None
                                false false false 5 0 Sample.installed
      = Return () s3 ∧
    download_subregion_osm_file Sample.world 1 5 ["malta"] ".osm.pbf" None
                                false true false 0 1 s3
      = Return () s4 ∧
    downloader_calls s4 = downloader_calls s3.
Proof.
  edestruct (download_then_skip Sample.world 0 0 5 "malta" ".osm.pbf" None
               false false false true false 5 0 0 1 Sample.installed)
    as (s3 & s4 & H1 & _ & _ & H2 & H3);
    [vm_compute; reflexivity | vm_compute; reflexivity | vm_compute; reflexivity
    | vm_compute; reflexivity | apply not_elem_of_empty | by left | reflexivity |].
  exists s3, s4. split; [exact H1|]. split; [exact H2 | exact H3].
Defined.

(** ** What never reaches the downloader *)

Section Silent.

Context (W : World).

Ltac quiet_walk :=
  repeat match goal with
         | |- quiet (_ ≫= _) => apply quiet_bind; [|intros ?]
         | |- quiet (mret _) => apply quiet_ret
         | |- quiet (raise _) => apply quiet_raise
         | |- quiet (lift_result _) => apply quiet_lift_result
         | |- quiet (fold_each _ _ _) => apply quiet_fold_each; intros ? ?
         | |- quiet (get_region_subregion_tier _ _ _ _ _) =>
             apply quiet_get_region_subregion_tier
         | |- quiet (regulate_input_subregion_name _ _) =>
             apply quiet_regulate_input_subregion_name
         | |- quiet (get_default_path_to_osm_file _ _ _ _ _ _ _) =>
             apply quiet_get_default_path_to_osm_file
         | |- quiet (match ?x with _ => _ end) => destruct x
         end.

Lemma quiet_retrieve_names_of_subregions_of_shallow
    (fuel : nat) (subregion_name : list string) :
  quiet (retrieve_names_of_subregions_of_shallow W fuel subregion_name).
Proof.
  unfold retrieve_names_of_subregions_of_shallow, subregions_of_each. quiet_walk.
Qed.

(** X20.  Nothing but the download itself touches the downloaded files or
    calls the downloader: resolving a name, looking a URL up, computing a
    file name or a path, expanding a region into its subregions and making
    the directory of the fallback leave the set of files and the record of
    downloader calls as they were, whether they return or raise, and even
    when they have to build and pickle the catalogue or the tier on the
    way. *)
Theorem only_the_download_touches_files
    (fuel : nat) (subregion_name osm_file_format : string) (names : list string)
    (download_dir : option string) (mkdir update deep : bool) (verbose : nat) :
  quiet (regulate_input_subregion_name W subregion_name) ∧
  quiet (get_subregion_download_url W fuel subregion_name osm_file_format update verbose) ∧
  quiet (get_default_osm_filename W fuel subregion_name osm_file_format update verbose) ∧
  quiet (get_default_path_to_osm_file W fuel subregion_name osm_file_format mkdir update
                                      verbose) ∧
  quiet (retrieve_names_of_subregions_of W fuel names deep) ∧
  quiet (make_default_sub_subregion_download_dir W fuel subregion_name osm_file_format
                                                 download_dir).
Proof.
  split_and!.
  - apply quiet_regulate_input_subregion_name.
  - apply quiet_get_subregion_download_url.
  - apply quiet_get_default_osm_filename.
  - apply quiet_get_default_path_to_osm_file.
  - unfold retrieve_names_of_subregions_of. destruct deep;
      [|apply quiet_retrieve_names_of_subregions_of_shallow].
    unfold subregions_of_each. quiet_walk.
    apply quiet_retrieve_names_of_subregions_of_shallow.
  - unfold make_default_sub_subregion_download_dir. quiet_walk.
Qed.

End Silent.
